(** * Ghost installer and uninstaller: a shallow embedding

    The repository holds two scripts, [install.py] and [uninstall.py].
    Both are straight-line orchestration over four external collaborators:
    the console ([rich]), the process runner ([subprocess.run]), the
    filesystem ([pathlib], [shutil]) and the interactive prompts
    ([Prompt.ask], [Confirm.ask]).

    The scripts are embedded as computations in a small state-and-exception
    monad.  The state carries the trace of every observable action, so that
    statements about what is printed, what is spawned and in which order are
    statements about a list of events.  The collaborators can fail the way
    the Python library does: a command that cannot be started, output that
    is no text, a tree that cannot be removed, an error text that is no
    markup. *)

From Stdlib Require Import String Ascii List ZArith Bool Arith Lia DecimalString.
Import ListNotations.
Local Open Scope list_scope.
Local Open Scope string_scope.

Set Implicit Arguments.

(** ** Python strings *)

Module PyStr.

(** The line feed of the Python literals. *)
Definition nl : string := String (ascii_of_nat 10) EmptyString.

(** [sep.join(xs)]. *)
Definition join (sep : string) (xs : list string) : string :=
  String.concat sep xs.

(** [str(n)] for an [int]. *)
Definition of_int (z : Z) : string := NilZero.string_of_int (Z.to_int z).

(** [str(len(xs))]. *)
Definition of_len (A : Type) (xs : list A) : string :=
  of_int (Z.of_nat (length xs)).

(** [sub in s], as a test. *)
Fixpoint contains (sub s : string) : bool :=
  prefix sub s ||
  match s with
  | EmptyString => false
  | String _ s' => contains sub s'
  end.

(** [sub] occurs somewhere inside [s]. *)
Definition occurs_in (sub s : string) : Prop :=
  exists pre post, s = pre ++ sub ++ post.

End PyStr.

(** ** pathlib *)

Module Pathlib.

(** A path is its anchor (drive and root, empty for a relative path)
    followed by its components. *)
Record Path : Type := mkPath { anchor : string; parts : list string }.

(** [pathlib.Path] is a [WindowsPath] when [os.name == "nt"] and a
    [PosixPath] otherwise; the two differ here by their separator. *)
Definition sep (os_name : string) : string :=
  if String.eqb os_name "nt" then "\" else "/".

(** [p / seg], for a [seg] that is one relative component. *)
Definition joinpath (p : Path) (seg : string) : Path :=
  {| anchor := anchor p; parts := (parts p ++ [seg])%list |}.

(** [str(p)]. *)
Definition to_str (os_name : string) (p : Path) : string :=
  match anchor p, parts p with
  | EmptyString, [] => "."
  | a, ps => a ++ PyStr.join (sep os_name) ps
  end.

Fixpoint is_prefix (xs ys : list string) : bool :=
  match xs, ys with
  | [], _ => true
  | x :: xs', y :: ys' => String.eqb x y && is_prefix xs' ys'
  | _ :: _, [] => false
  end.

(** [q] is [p] or lies below it. *)
Definition within (p q : Path) : bool :=
  String.eqb (anchor p) (anchor q) && is_prefix (parts p) (parts q).

End Pathlib.

Notation "p // seg" := (Pathlib.joinpath p seg) (at level 40, left associativity).

(** ** rich *)

Module Rich.

(** What [console.print] is given: a markup string, a [Text] with its
    justification, or a [Panel] around one of these. *)
Inductive Renderable : Type :=
| Markup (s : string)
| Text (s : string) (justify : string)
| Panel (body : Renderable) (title : option string) (style : option string).

(** The characters a renderable carries. *)
Fixpoint text_of (r : Renderable) : string :=
  match r with
  | Markup s => s
  | Text s _ => s
  | Panel b _ _ => text_of b
  end.

End Rich.

(** ** The outside world *)

(** What a finished child process leaves behind: its exit code and what it
    wrote on its standard error. *)
Record Exited : Type := mkExited { exit_status : Z; err_text : string }.

(** [subprocess.CompletedProcess]: [stderr] is [None] unless the output was
    captured. *)
Record CompletedProcess : Type :=
  mkCompleted { returncode : Z; stderr : option string }.

(** The exceptions that leave a script. *)
Inductive Exn : Type :=
| SystemExit (msg : string)
| AttributeError
| MarkupError
| OSError
| UnicodeDecodeError.

(** One run of a script sees one world: the interpreter it runs under, the
    platform, the directory of the script, the filesystem at start, and the
    operator's answers, as a function of the question.  Of the [k]-th
    command handed to [subprocess.run] it tells whether the command can be
    started at all, whether what the child writes can be decoded as text,
    how the child ends, and what the child makes of the filesystem.  It
    tells which texts [rich] accepts as markup, and for which paths
    [shutil.rmtree] gives up, and what it leaves behind then. *)
Record World : Type := mkWorld {
  sys_executable : string;
  os_name : string;
  script_dir : Pathlib.Path;
  path_exists : Pathlib.Path -> bool;
  child : nat -> Exited;
  starts : nat -> bool;
  decodes : nat -> bool;
  touches : nat -> (Pathlib.Path -> bool) -> Pathlib.Path -> bool;
  markup_ok : string -> bool;
  rmtree_stops : Pathlib.Path -> option ((Pathlib.Path -> bool) -> Pathlib.Path -> bool);
  prompt_reply : string -> string;
  confirm_reply : string -> bool
}.

(** Observable actions, in program order.  A [Spawn] is a call of
    [subprocess.run] that handed back a result: it records the command,
    whether its output was captured, and how the child ended.  A
    [SpawnFailed] is a call that raised instead. *)
Inductive Event : Type :=
| Log (msg : string)
| Print (r : Rich.Renderable)
| Spawn (cmd : list string) (captured : bool) (res : Exited)
| SpawnFailed (cmd : list string) (captured : bool) (e : Exn)
| AskChoice (prompt : string) (choices : list string) (default : string)
| AskConfirm (prompt : string) (default : bool)
| Rmtree (p : Pathlib.Path).

Inductive Outcome (A : Type) : Type :=
| Returned (a : A)
| Raised (e : Exn).
Arguments Raised {A} e.

(** The exit status of the process: 0 when [main] returns, 1 when an
    exception leaves it ([SystemExit] with a string prints the string and
    exits 1, any other exception prints its traceback and exits 1). *)
Definition exit_code (A : Type) (o : Outcome A) : Z :=
  match o with
  | Returned _ => 0
  | Raised _ => 1
  end.

Record State : Type := mkState {
  trace : list Event;
  spawned : nat;
  fs : Pathlib.Path -> bool
}.

Definition start (w : World) : State :=
  {| trace := []; spawned := 0; fs := path_exists w |}.

(** ** The monad *)

Definition M (A : Type) : Type := State -> Outcome A * State.

Definition ret (A : Type) (a : A) : M A := fun s => (Returned a, s).

Definition bind (A B : Type) (m : M A) (k : A -> M B) : M B :=
  fun s =>
    match m s with
    | (Returned a, s') => k a s'
    | (Raised e, s') => (Raised e, s')
    end.

Definition raise (A : Type) (e : Exn) : M A := fun s => (Raised e, s).
Arguments raise {A} e.

Declare Scope py_scope.
Delimit Scope py_scope with py.
Notation "x <- m ;; k" := (bind m (fun x => k))
  (at level 61, m at next level, right associativity) : py_scope.
Notation "m ;; k" := (bind m (fun _ => k))
  (at level 61, right associativity) : py_scope.
Local Open Scope py_scope.

Definition emit (e : Event) : M unit :=
  fun s => (Returned tt,
            {| trace := (trace s ++ [e])%list; spawned := spawned s; fs := fs s |}).

(** [console.log(msg)] and [console.print(r)] for the texts a script
    builds from its own literals, the package names, the paths and the
    command lines; these are taken to be well-formed markup. *)
Definition console_log (msg : string) : M unit := emit (Log msg).
Definition console_print (r : Rich.Renderable) : M unit := emit (Print r).

(** [console.print(r)] for a text that holds what a child wrote: [rich]
    parses it as markup before anything is shown, and raises
    [MarkupError] when it cannot. *)
Definition console_print_markup (w : World) (r : Rich.Renderable) : M unit :=
  if markup_ok w (Rich.text_of r) then emit (Print r) else raise MarkupError.

(** [subprocess.run(cmd, capture_output=captured, text=captured)]: blocks
    until the child ends.  It raises [OSError] when the command cannot be
    started, and [UnicodeDecodeError] when the output is captured and is no
    text; the child has run then.  Every call counts, started or not. *)
Definition subprocess_run (w : World) (cmd : list string) (captured : bool)
  : M CompletedProcess :=
  fun s =>
    let k := spawned s in
    if negb (starts w k) then
      (Raised OSError,
       {| trace := (trace s ++ [SpawnFailed cmd captured OSError])%list;
          spawned := S k;
          fs := fs s |})
    else if captured && negb (decodes w k) then
      (Raised UnicodeDecodeError,
       {| trace := (trace s ++ [SpawnFailed cmd captured UnicodeDecodeError])%list;
          spawned := S k;
          fs := touches w k (fs s) |})
    else
      (Returned {| returncode := exit_status (child w k);
                   stderr := if captured then Some (err_text (child w k)) else None |},
       {| trace := (trace s ++ [Spawn cmd captured (child w k)])%list;
          spawned := S k;
          fs := touches w k (fs s) |}).

(** [p.exists()]. *)
Definition exists_ (p : Pathlib.Path) : M bool :=
  fun s => (Returned (fs s p), s).

(** [shutil.rmtree(p)]: when it goes through, [p] and everything below it
    is gone afterwards.  It raises [OSError] when nothing exists at [p],
    and when it gives up on [p] (a file, a link, a tree it may not
    remove); the world tells what is left then. *)
Definition rmtree (w : World) (p : Pathlib.Path) : M unit :=
  fun s =>
    if negb (fs s p) then
      (Raised OSError,
       {| trace := (trace s ++ [Rmtree p])%list; spawned := spawned s; fs := fs s |})
    else
      match rmtree_stops w p with
      | Some rest =>
          (Raised OSError,
           {| trace := (trace s ++ [Rmtree p])%list;
              spawned := spawned s;
              fs := rest (fs s) |})
      | None =>
          (Returned tt,
           {| trace := (trace s ++ [Rmtree p])%list;
              spawned := spawned s;
              fs := fun q => if Pathlib.within p q then false else fs s q |})
      end.

(** What [Prompt.ask] hands back for the entry that ends it: [rich] asks
    again until the entry is one of the choices or empty, and an empty
    entry stands for the default.  An entry outside the choices never ends
    the asking and is read here as an empty one. *)
Definition accepted (choices : list string) (default entry : string) : string :=
  if existsb (String.eqb entry) choices then entry else default.

(** [Prompt.ask(prompt, choices=..., default=...)]. *)
Definition Prompt_ask (w : World) (prompt : string) (choices : list string)
  (default : string) : M string :=
  emit (AskChoice prompt choices default) ;;
  ret (accepted choices default (prompt_reply w prompt)).

(** [Confirm.ask(prompt, default=...)]: the world gives what the call
    hands back, the default when the operator only presses Enter. *)
Definition Confirm_ask (w : World) (prompt : string) (default : bool) : M bool :=
  emit (AskConfirm prompt default) ;; ret (confirm_reply w prompt).

(** [for x in xs: body(x)]. *)
Fixpoint for_each (A : Type) (xs : list A) (body : A -> M unit) : M unit :=
  match xs with
  | [] => ret tt
  | x :: xs' => body x ;; for_each xs' body
  end.

(** ** install.py *)

Module Install.

(** The namespace [argparse] hands to [main]. *)
Record Args : Type := mkArgs {
  no_venv : bool;
  venv : string;
  brek : bool;
  yes : bool
}.

Definition VCS_PACKAGES : list string :=
  [ "badges @ git+https://github.com/EntySec/Badges";
    "pex @ git+https://github.com/EntySec/Pex";
    "colorscript @ git+https://github.com/EntySec/ColorScript";
    "adb-shell>=0.1.0";
    "rich>=10.0" ].

Definition PY_PACKAGES : list string := [].

Section Script.

(** [str.strip] and the constructor [pathlib.Path] of the Python
    library. *)
Variable strip : string -> string.
Variable Path : string -> Pathlib.Path.

Variable w : World.

Definition DEFAULT_VENV : Pathlib.Path := script_dir w // ".venv".

(** [run(cmd, env=None, check=True)]; no caller passes [env].  The
    standard error of the child goes into the markup of the panel as it
    is. *)
Definition run (cmd : list string) (check : bool) : M unit :=
  console_log ("[bold purple]$[/bold purple] " ++ PyStr.join " " cmd) ;;
  res <- subprocess_run w cmd true ;;
  if negb (returncode res =? 0)%Z then
    err <- match stderr res with
           | Some e => ret e
           | None => raise AttributeError
           end ;;
    console_print_markup w
      (Rich.Panel (Rich.Markup ("[red]Error:[/red] " ++ strip err))
                  (Some "Installation Error") None) ;;
    if check then
      raise (SystemExit ("Command failed: " ++ PyStr.join " " cmd ++
                         " (exit " ++ PyStr.of_int (returncode res) ++ ")"))
    else ret tt
  else ret tt.

Definition ensure_virtualenv (venv_path : Pathlib.Path) : M (string * string) :=
  present <- exists_ venv_path ;;
  (if present then
     console_print
       (Rich.Panel (Rich.Markup ("Using existing virtualenv: [bold]" ++
                                 Pathlib.to_str (os_name w) venv_path ++ "[/bold]"))
                   (Some "Virtualenv") None)
   else
     console_print
       (Rich.Panel (Rich.Markup ("Creating virtualenv at: [bold]" ++
                                 Pathlib.to_str (os_name w) venv_path ++ "[/bold]"))
                   (Some "Virtualenv") None) ;;
     run [sys_executable w; "-m"; "venv"; Pathlib.to_str (os_name w) venv_path] true) ;;
  let py := if String.eqb (os_name w) "nt"
            then venv_path // "Scripts" // "python.exe"
            else venv_path // "bin" // "python" in
  let pip := if String.eqb (os_name w) "nt"
             then venv_path // "Scripts" // "pip.exe"
             else venv_path // "bin" // "pip" in
  ret (Pathlib.to_str (os_name w) py, Pathlib.to_str (os_name w) pip).

Definition install_packages (py_exe : string) (packages : list string)
  (break_system : bool) : M unit :=
  match packages with
  | [] => ret tt
  | _ :: _ =>
      let cmd := ([py_exe; "-m"; "pip"; "install"] ++ packages)%list in
      let cmd := if break_system
                 then (cmd ++ ["--break-system-packages"])%list else cmd in
      run cmd true
  end.

Definition install_local_package (py_exe : string) (break_system : bool) : M unit :=
  let cmd := [py_exe; "-m"; "pip"; "install"; "."; "--no-deps"] in
  let cmd := if break_system
             then (cmd ++ ["--break-system-packages"])%list else cmd in
  run cmd true.

(** Lines 106 to 129 of [main]: the pair [(use_venv, use_brek)] the
    flags and, when asked, the operator select. *)
Definition select_mode (args : Args) : M (bool * bool) :=
  let use_brek := brek args in
  let use_venv := negb (no_venv args) in
  let auto_yes := yes args in
  if negb (brek args || no_venv args) && negb auto_yes then
    choice <- Prompt_ask w "Choose install mode" ["venv"; "brek"; "system"] "venv" ;;
    if String.eqb choice "venv" then ret (true, false)
    else if String.eqb choice "brek" then ret (false, true)
    else ret (false, false)
  else if auto_yes then ret (true, false)
  else ret (use_venv, use_brek).

(** Line 131 of [main]. *)
Definition break_system_flag (use_venv : bool) : bool := negb use_venv.

(** Lines 131 to 153 of [main], from the selected pair on. *)
Definition install_with (args : Args) (use_venv use_brek : bool) : M unit :=
  let break_system_flag := break_system_flag use_venv in
  (if break_system_flag then
     console_print
       (Rich.Panel (Rich.Markup "Installing into current Python interpreter (no virtualenv). --break-system-packages enabled")
                   (Some "Notice") (Some "yellow"))
   else ret tt) ;;
  py_exe <- (if use_venv then
               exes <- ensure_virtualenv (Path (venv args)) ;; ret (fst exes)
             else ret (sys_executable w)) ;;
  console_print (Rich.Markup "[bold]Upgrading pip in target environment...[/bold]") ;;
  let cmd_upgrade := [py_exe; "-m"; "pip"; "install"; "--upgrade"; "pip"] in
  let cmd_upgrade := if break_system_flag
                     then (cmd_upgrade ++ ["--break-system-packages"])%list
                     else cmd_upgrade in
  run cmd_upgrade true ;;
  console_print
    (Rich.Panel (Rich.Markup ("Installing VCS/GitHub packages (" ++
                              PyStr.of_len VCS_PACKAGES ++ " items)..."))
                (Some "Dependencies") None) ;;
  install_packages py_exe VCS_PACKAGES break_system_flag ;;
  console_print
    (Rich.Panel (Rich.Markup "Installing Ghost main package...") None (Some "purple")) ;;
  install_local_package py_exe break_system_flag ;;
  console_print
    (Rich.Panel (Rich.Markup "[bold green]Installation completed successfully![/bold green]")
                None None) ;;
  console_print (Rich.Markup "You can now run: ghost").

Definition main (args : Args) : M unit :=
  console_print
    (Rich.Panel (Rich.Text ("Ghost Installer — staged installation" ++ PyStr.nl ++
                            PyStr.nl ++ "Index 99 → Exit") "center")
                None (Some "purple")) ;;
  mode <- select_mode args ;;
  install_with args (fst mode) (snd mode).

End Script.

End Install.

(** ** uninstall.py *)

Module Uninstall.

Definition PYTHON_PACKAGES : list string :=
  [ "ghost"; "adb-shell"; "pex"; "badges"; "colorscript" ].

Section Script.

Variable w : World.

Definition DEFAULT_VENV : Pathlib.Path := script_dir w // ".venv".

(** [run(cmd, check=True)]: the child inherits the terminal, nothing is
    captured. *)
Definition run (cmd : list string) (check : bool) : M unit :=
  console_log ("[bold purple]$[/bold purple] " ++ PyStr.join " " cmd) ;;
  res <- subprocess_run w cmd false ;;
  if check && negb (returncode res =? 0)%Z then
    console_print
      (Rich.Panel (Rich.Markup ("[red]Command failed: " ++ PyStr.join " " cmd ++ "[/red]"))
                  None None)
  else ret tt.

Definition uninstall_packages (python_exe : string) (break_system : bool) : M unit :=
  for_each PYTHON_PACKAGES (fun pkg =>
    console_print
      (Rich.Panel (Rich.Markup ("Uninstalling package: [bold]" ++ pkg ++ "[/bold]"))
                  None None) ;;
    let cmd := [python_exe; "-m"; "pip"; "uninstall"; "-y"; pkg] in
    let cmd := if break_system
               then (cmd ++ ["--break-system-packages"])%list else cmd in
    run cmd true).

Definition remove_virtualenv (venv_path : Pathlib.Path) : M unit :=
  present <- exists_ venv_path ;;
  if present then
    console_print
      (Rich.Panel (Rich.Markup ("Removing virtualenv: [bold]" ++
                                Pathlib.to_str (os_name w) venv_path ++ "[/bold]"))
                  None None) ;;
    rmtree w venv_path ;;
    console_print (Rich.Panel (Rich.Markup "[green]Virtualenv removed.[/green]") None None)
  else
    console_print (Rich.Panel (Rich.Markup "[yellow]No virtualenv found.[/yellow]") None None).

Definition ask_remove_venv : string :=
  "Detected virtualenv at " ++ Pathlib.to_str (os_name w) DEFAULT_VENV ++ ". Remove it?".

Definition ask_uninstall_system : string :=
  "Do you want to uninstall Ghost Python packages from system interpreter?".

Definition main : M unit :=
  console_print
    (Rich.Panel (Rich.Markup ("[bold purple]Ghost Uninstaller[/bold purple]" ++ PyStr.nl ++
                              "Index 99 → Return to Menu / Exit"))
                None None) ;;
  present <- exists_ DEFAULT_VENV ;;
  (if present then
     use_venv <- Confirm_ask w ask_remove_venv true ;;
     if use_venv then remove_virtualenv DEFAULT_VENV else ret tt
   else ret tt) ;;
  uninstall_system <- Confirm_ask w ask_uninstall_system false ;;
  (if uninstall_system then
     let python_exe := sys_executable w in
     uninstall_packages python_exe true
   else ret tt) ;;
  console_print
    (Rich.Panel (Rich.Markup "[bold green]Uninstall process completed.[/bold green]")
                None None).

End Script.

End Uninstall.

(** ** Reading a trace *)

(** The commands handed to [subprocess.run], oldest first. *)
Fixpoint commands (tr : list Event) : list (list string) :=
  match tr with
  | [] => []
  | Spawn cmd _ _ :: tr' => cmd :: commands tr'
  | SpawnFailed cmd _ _ :: tr' => cmd :: commands tr'
  | _ :: tr' => commands tr'
  end.

(** The paths handed to [shutil.rmtree], oldest first. *)
Fixpoint removals (tr : list Event) : list Pathlib.Path :=
  match tr with
  | [] => []
  | Rmtree p :: tr' => p :: removals tr'
  | _ :: tr' => removals tr'
  end.

(** The questions put to the operator, oldest first. *)
Fixpoint questions (tr : list Event) : list string :=
  match tr with
  | [] => []
  | AskChoice q _ _ :: tr' => q :: questions tr'
  | AskConfirm q _ :: tr' => q :: questions tr'
  | _ :: tr' => questions tr'
  end.

(** Everything the script itself wrote on the console, oldest first. *)
Fixpoint printed (tr : list Event) : list string :=
  match tr with
  | [] => []
  | Log msg :: tr' => msg :: printed tr'
  | Print r :: tr' => Rich.text_of r :: printed tr'
  | _ :: tr' => printed tr'
  end.

(** ** The vocabulary of the specification *)

(** The three install modes of the data model. *)
Inductive InstallMode : Type :=
| UseVirtualEnv
| FilteredSystemOnly
| DirectSystem.

(** The mode a selected pair [(use_venv, use_brek)] stands for.  The
    filtered mode is the one [use_brek] marks: the flag [--brek] and the
    answer [brek] set it.  Without it, the pair stands for the virtual
    environment or for the running interpreter, by [use_venv]. *)
Definition install_mode (use_venv use_brek : bool) : InstallMode :=
  if use_brek then FilteredSystemOnly
  else if use_venv then UseVirtualEnv
  else DirectSystem.

(** A command of the shape [<python> -m pip install ...]. *)
Definition is_pip_install (cmd : list string) : bool :=
  match cmd with
  | _ :: m :: p :: i :: _ =>
      String.eqb m "-m" && String.eqb p "pip" && String.eqb i "install"
  | _ => false
  end.

(** The command ends with the flag that bypasses the protection of an
    externally managed environment. *)
Definition bypasses (cmd : list string) : bool :=
  String.eqb (last cmd EmptyString) "--break-system-packages".

(** A package specifier that points at a version-control location. *)
Definition from_vcs (specifier : string) : bool :=
  PyStr.contains "git+" specifier.

(** What a command of an installation has to be like when the run was
    told to use a virtual environment or not, and works on the interpreter
    [target]: every [pip install] carries the bypass flag exactly when no
    virtual environment is used, and runs under [target]. *)
Definition well_aimed (use_venv : bool) (target : string) (cmd : list string) : Prop :=
  is_pip_install cmd = true ->
  (bypasses cmd = true <-> use_venv = false) /\ hd EmptyString cmd = target.

Definition targets (use_venv : bool) (target : string) (e : Event) : Prop :=
  match e with
  | Spawn cmd _ _ => well_aimed use_venv target cmd
  | SpawnFailed cmd _ _ => well_aimed use_venv target cmd
  | _ => True
  end.

(** The three things [Install.run] leaves on the console and raises when a
    command fails. *)
Definition command_line (cmd : list string) : Event :=
  Log ("[bold purple]$[/bold purple] " ++ PyStr.join " " cmd).

(** The markup [Install.run] builds for a child that ended with [r]. *)
Definition error_text (strip : string -> string) (r : Exited) : string :=
  "[red]Error:[/red] " ++ strip (err_text r).

Definition error_panel (strip : string -> string) (r : Exited) : Event :=
  Print (Rich.Panel (Rich.Markup ("[red]Error:[/red] " ++ strip (err_text r)))
                    (Some "Installation Error") None).

Definition abort_message (cmd : list string) (r : Exited) : Exn :=
  SystemExit ("Command failed: " ++ PyStr.join " " cmd ++
              " (exit " ++ PyStr.of_int (exit_status r) ++ ")").

(** The panel [Uninstall.run] prints when a command fails. *)
Definition failure_panel (cmd : list string) : Event :=
  Print (Rich.Panel (Rich.Markup ("[red]Command failed: " ++ PyStr.join " " cmd ++ "[/red]"))
                    None None).

(** The command [uninstall_packages] builds for one package. *)
Definition uninstall_command (python_exe : string) (break_system : bool)
  (pkg : string) : list string :=
  if break_system
  then ([python_exe; "-m"; "pip"; "uninstall"; "-y"; pkg] ++ ["--break-system-packages"])%list
  else [python_exe; "-m"; "pip"; "uninstall"; "-y"; pkg].

(** What one turn of the loop of [uninstall_packages] leaves on the trace
    when its command is the [k]-th handed to [subprocess.run], and what the
    whole loop leaves: it stops at the first command that cannot be
    started. *)
Definition attempt (w : World) (python_exe : string) (break_system : bool)
  (pkg : string) (k : nat) : list Event :=
  let cmd := uninstall_command python_exe break_system pkg in
  ([ Print (Rich.Panel (Rich.Markup ("Uninstalling package: [bold]" ++ pkg ++ "[/bold]"))
                       None None);
     command_line cmd ] ++
   (if starts w k then
      Spawn cmd false (child w k) ::
      (if (exit_status (child w k) =? 0)%Z then [] else [failure_panel cmd])
    else [SpawnFailed cmd false OSError]))%list.

Fixpoint attempts (w : World) (python_exe : string) (break_system : bool)
  (pkgs : list string) (k : nat) : list Event :=
  match pkgs with
  | [] => []
  | pkg :: pkgs' =>
      (attempt w python_exe break_system pkg k ++
       (if starts w k then attempts w python_exe break_system pkgs' (S k) else []))%list
  end.

(** The [n] commands from the [k]-th on can all be started. *)
Fixpoint all_start (w : World) (k n : nat) : bool :=
  match n with
  | 0 => true
  | S n' => starts w k && all_start w (S k) n'
  end.

(** How many of [n] commands in a row, the [k]-th first, are handed to
    [subprocess.run] when the first that cannot be started is the last. *)
Fixpoint attempted (w : World) (k n : nat) : nat :=
  match n with
  | 0 => 0
  | S n' => S (if starts w k then attempted w (S k) n' else 0)
  end.

(** The removal of the default virtual environment is confirmed and
    [shutil.rmtree] gives up on it. *)
Definition removal_raises (w : World) : bool :=
  path_exists w (Uninstall.DEFAULT_VENV w) &&
  confirm_reply w (Uninstall.ask_remove_venv w) &&
  match rmtree_stops w (Uninstall.DEFAULT_VENV w) with
  | Some _ => true
  | None => false
  end.

(** The removal of the packages is confirmed and one of the commands of
    the loop cannot be started. *)
Definition packages_raise (w : World) : bool :=
  confirm_reply w Uninstall.ask_uninstall_system &&
  negb (all_start w 0 (length Uninstall.PYTHON_PACKAGES)).

(** What the first part of [Uninstall.main] leaves on the trace. *)
Definition venv_removal (w : World) : list Event :=
  if path_exists w (Uninstall.DEFAULT_VENV w) then
    AskConfirm (Uninstall.ask_remove_venv w) true ::
    (if confirm_reply w (Uninstall.ask_remove_venv w) then
       [ Print (Rich.Panel
                  (Rich.Markup ("Removing virtualenv: [bold]" ++
                                Pathlib.to_str (os_name w) (Uninstall.DEFAULT_VENV w) ++
                                "[/bold]"))
                  None None);
         Rmtree (Uninstall.DEFAULT_VENV w) ] ++
       match rmtree_stops w (Uninstall.DEFAULT_VENV w) with
       | Some _ => []
       | None =>
           [ Print (Rich.Panel (Rich.Markup "[green]Virtualenv removed.[/green]")
                               None None) ]
       end
     else [])%list
  else [].

Definition uninstall_banner : Event :=
  Print (Rich.Panel (Rich.Markup ("[bold purple]Ghost Uninstaller[/bold purple]" ++ PyStr.nl ++
                                  "Index 99 → Return to Menu / Exit"))
                    None None).

(** What an event shows on the console. *)
Definition event_text (e : Event) : string :=
  match e with
  | Log msg => msg
  | Print r => Rich.text_of r
  | _ => EmptyString
  end.

(** The last things a run prints when it gets to its end. *)
Definition install_completed : list Event :=
  [ Print (Rich.Panel
             (Rich.Markup "[bold green]Installation completed successfully![/bold green]")
             None None);
    Print (Rich.Markup "You can now run: ghost") ].

Definition uninstall_completed : Event :=
  Print (Rich.Panel (Rich.Markup "[bold green]Uninstall process completed.[/bold green]")
                    None None).

Definition absence_report : Event :=
  Print (Rich.Panel (Rich.Markup "[yellow]No virtualenv found.[/yellow]") None None).

(** An event that is no call of [subprocess.run]. *)
Definition quiet (e : Event) : Prop :=
  match e with
  | Spawn _ _ _ | SpawnFailed _ _ _ => False
  | _ => True
  end.

(** An event that puts a question to the operator. *)
Definition is_question (e : Event) : bool :=
  match e with
  | AskChoice _ _ _ | AskConfirm _ _ => true
  | _ => false
  end.

(** The interpreter and the installer inside a virtual environment, in the
    layout of the platform. *)
Definition venv_python (os : string) (p : Pathlib.Path) : string :=
  Pathlib.to_str os (if String.eqb os "nt"
                     then p // "Scripts" // "python.exe"
                     else p // "bin" // "python").

Definition venv_pip (os : string) (p : Pathlib.Path) : string :=
  Pathlib.to_str os (if String.eqb os "nt"
                     then p // "Scripts" // "pip.exe"
                     else p // "bin" // "pip").

(** Every component of a directory followed by the separator: what stands
    before a name below that directory. *)
Fixpoint dir_prefix (sep : string) (xs : list string) : string :=
  match xs with
  | [] => EmptyString
  | x :: xs' => x ++ sep ++ dir_prefix sep xs'
  end.

(** The command that provisions a virtual environment at [p]. *)
Definition provision (w : World) (p : Pathlib.Path) : list string :=
  [sys_executable w; "-m"; "venv"; Pathlib.to_str (os_name w) p].

(** A whole run of either script, from the start: how it ends and what it
    leaves on the trace. *)
Definition install_outcome (strip : string -> string) (Path : string -> Pathlib.Path)
  (w : World) (args : Install.Args) : Outcome unit :=
  fst (Install.main strip Path w args (start w)).

Definition install_trace (strip : string -> string) (Path : string -> Pathlib.Path)
  (w : World) (args : Install.Args) : list Event :=
  trace (snd (Install.main strip Path w args (start w))).

Definition uninstall_outcome (w : World) : Outcome unit :=
  fst (Uninstall.main w (start w)).

Definition uninstall_trace (w : World) : list Event :=
  trace (snd (Uninstall.main w (start w))).

(** A call of [subprocess.run] that handed back exit code 0, or an event
    of another kind. *)
Definition went_well (e : Event) : Prop :=
  match e with
  | Spawn _ _ r => exit_status r = 0%Z
  | SpawnFailed _ _ _ => False
  | _ => True
  end.

(** Every command of the trace was started, gave text where captured, and
    ended with exit code 0. *)
Definition clean (tr : list Event) : Prop := Forall went_well tr.

(** What follows the command line of a required command whose child ended
    with a non-zero [r], and what is raised: the error panel and the exit,
    or [MarkupError] when [rich] does not take the error text. *)
Definition failure_tail (strip : string -> string) (w : World)
  (cmd : list string) (r : Exited) : list Event :=
  Spawn cmd true r ::
  (if markup_ok w (error_text strip r) then [error_panel strip r] else []).

Definition failure_exn (strip : string -> string) (w : World)
  (cmd : list string) (r : Exited) : Exn :=
  if markup_ok w (error_text strip r) then abort_message cmd r else MarkupError.

(** The trace stops right after the first command that did not go well,
    and [e] is what was raised for it. *)
Definition aborted (strip : string -> string) (w : World) (tr : list Event)
  (e : Exn) : Prop :=
  exists tr0 cmd,
    clean tr0 /\
    ((exists r, exit_status r <> 0%Z /\
                tr = (tr0 ++ command_line cmd :: failure_tail strip w cmd r)%list /\
                e = failure_exn strip w cmd r) \/
     (tr = (tr0 ++ [command_line cmd; SpawnFailed cmd true e])%list)).

(** What a required command of the installer raises when it is the
    [k]-th handed to [subprocess.run], if it raises. *)
Definition required_exn (strip : string -> string) (w : World)
  (cmd : list string) (k : nat) : option Exn :=
  if negb (starts w k) then Some OSError
  else if negb (decodes w k) then Some UnicodeDecodeError
  else if (exit_status (child w k) =? 0)%Z then None
  else Some (failure_exn strip w cmd (child w k)).

(** What [Install.run] leaves on the trace for the [k]-th command. *)
Definition run_events (strip : string -> string) (w : World)
  (cmd : list string) (k : nat) : list Event :=
  command_line cmd ::
  (if negb (starts w k) then [SpawnFailed cmd true OSError]
   else if negb (decodes w k) then [SpawnFailed cmd true UnicodeDecodeError]
   else if (exit_status (child w k) =? 0)%Z then [Spawn cmd true (child w k)]
   else failure_tail strip w cmd (child w k)).

(** What the [k]-th call of [subprocess.run] makes of the filesystem. *)
Definition run_fs (w : World) (k : nat) (present : Pathlib.Path -> bool)
  : Pathlib.Path -> bool :=
  if starts w k then touches w k present else present.

(** C7 as the specification words it: for every failed command of a trace,
    something printed holds its command line and something printed holds
    the error text of the child, the whitespace around it apart. *)
Definition reports_every_failure (strip : string -> string) (tr : list Event) : Prop :=
  forall cmd c r,
    In (Spawn cmd c r) tr -> exit_status r <> 0%Z ->
    (exists t, In t (printed tr) /\ PyStr.occurs_in (PyStr.join " " cmd) t) /\
    (exists t, In t (printed tr) /\ PyStr.occurs_in (strip (err_text r)) t).

(** C10 as the specification words it: both confirmations are put to the
    operator. *)
Definition asks_both_confirmations (w : World) : Prop :=
  In (AskConfirm (Uninstall.ask_remove_venv w) true) (uninstall_trace w) /\
  In (AskConfirm Uninstall.ask_uninstall_system false) (uninstall_trace w).

(** ** Sample worlds *)

(** The ASCII characters [str.strip] removes. *)
Definition py_space (c : ascii) : bool :=
  let n := nat_of_ascii c in
  ((9 <=? n)%nat && (n <=? 13)%nat) || ((28 <=? n)%nat && (n <=? 32)%nat).

Fixpoint lstrip (s : string) : string :=
  match s with
  | EmptyString => EmptyString
  | String c s' => if py_space c then lstrip s' else s
  end.

Definition reversed (s : string) : string :=
  string_of_list_ascii (rev (list_ascii_of_string s)).

(** [str.strip] on ASCII text. *)
Definition ascii_strip (s : string) : string :=
  reversed (lstrip (reversed (lstrip s))).

(** [pathlib.Path(name)] for a relative name of one component. *)
Definition relative (name : string) : Pathlib.Path :=
  {| Pathlib.anchor := EmptyString; Pathlib.parts := [name] |}.

(** A POSIX machine with the scripts in [/opt/ghost], where every command
    can be started and writes text, no child touches the paths the scripts
    look at, [rich] takes every text and [shutil.rmtree] never gives up. *)
Definition posix_world (present : Pathlib.Path -> bool) (results : nat -> Exited)
  (choice : string) (confirm : string -> bool) : World :=
  {| sys_executable := "/usr/bin/python3";
     os_name := "posix";
     script_dir := {| Pathlib.anchor := "/"; Pathlib.parts := ["opt"; "ghost"] |};
     path_exists := present;
     child := results;
     starts := fun _ => true;
     decodes := fun _ => true;
     touches := fun _ present => present;
     markup_ok := fun _ => true;
     rmtree_stops := fun _ => None;
     prompt_reply := fun _ => choice;
     confirm_reply := confirm |}.

(** The world [w] with a [rich] that takes no text that holds [bad]. *)
Definition rejecting (bad : string) (w : World) : World :=
  {| sys_executable := sys_executable w;
     os_name := os_name w;
     script_dir := script_dir w;
     path_exists := path_exists w;
     child := child w;
     starts := starts w;
     decodes := decodes w;
     touches := touches w;
     markup_ok := fun t => negb (PyStr.contains bad t);
     rmtree_stops := rmtree_stops w;
     prompt_reply := prompt_reply w;
     confirm_reply := confirm_reply w |}.

(** The world [w] with a default virtual environment that cannot be
    removed and is left as it is. *)
Definition stuck (w : World) : World :=
  {| sys_executable := sys_executable w;
     os_name := os_name w;
     script_dir := script_dir w;
     path_exists := path_exists w;
     child := child w;
     starts := starts w;
     decodes := decodes w;
     touches := touches w;
     markup_ok := markup_ok w;
     rmtree_stops := fun _ => Some (fun present => present);
     prompt_reply := prompt_reply w;
     confirm_reply := confirm_reply w |}.

(** The flags of one invocation, with the default [--venv]. *)
Definition flags (no_venv brek yes : bool) : Install.Args :=
  {| Install.no_venv := no_venv; Install.venv := ".venv";
     Install.brek := brek; Install.yes := yes |}.

(** Every child succeeds; the [k]-th child fails with a message. *)
Definition all_succeed : nat -> Exited :=
  fun _ => {| exit_status := 0; err_text := EmptyString |}.

Definition fails_at (k : nat) : nat -> Exited :=
  fun n => if Nat.eqb n k
           then {| exit_status := 1; err_text := " boom " |}
           else {| exit_status := 0; err_text := EmptyString |}.

(** The [k]-th child fails and points at its log, in brackets. *)
Definition fails_with_log_at (k : nat) : nat -> Exited :=
  fun n => if Nat.eqb n k
           then {| exit_status := 1; err_text := "ERROR: see [/tmp/pip.log]" |}
           else {| exit_status := 0; err_text := EmptyString |}.

(** ** A program logic for the monad *)

(** [triple P m Q]: from a state in [P], [m] ends in an outcome and a state
    related by [Q].  [m] is a function, so it always ends. *)
Definition triple (A : Type) (P : State -> Prop) (m : M A)
  (Q : Outcome A -> State -> Prop) : Prop :=
  forall s, P s -> Q (fst (m s)) (snd (m s)).

(** [m] only ever adds events that satisfy [P], however it ends. *)
Definition keeps (A : Type) (P : Event -> Prop) (m : M A) : Prop :=
  triple (fun s => Forall P (trace s)) m (fun _ s => Forall P (trace s)).

(** [m] stops at the first failed command: it returns over a clean trace
    or raises over an aborted one. *)
Definition fail_fast (strip : string -> string) (w : World) (A : Type) (m : M A)
  : Prop :=
  triple (fun s => clean (trace s)) m
         (fun o s => match o with
                     | Returned _ => clean (trace s)
                     | Raised e => aborted strip w (trace s) e
                     end).

(** ** The plan of an installation *)

(** [cmd], with the bypass flag appended when [b] holds. *)
Definition with_bypass (b : bool) (cmd : list string) : list string :=
  if b then (cmd ++ ["--break-system-packages"])%list else cmd.

(** The pair [(use_venv, use_brek)] the selection of [main] returns. *)
Definition selected (w : World) (args : Install.Args) : bool * bool :=
  match fst (Install.select_mode w args (start w)) with
  | Returned mode => mode
  | Raised _ => (false, false)
  end.

(** C3 as the specification words it: the bypass flag is set exactly when
    the selected mode is not the virtual environment. *)
Definition flag_iff_not_virtualenv (w : World) (args : Install.Args) : Prop :=
  Install.break_system_flag (fst (selected w args)) = true <->
  install_mode (fst (selected w args)) (snd (selected w args)) <> UseVirtualEnv.

(** No flag decides the mode, so the operator has to. *)
Definition undecided (args : Install.Args) : bool :=
  negb (Install.brek args || Install.no_venv args) && negb (Install.yes args).

Definition install_banner : Event :=
  Print (Rich.Panel (Rich.Text ("Ghost Installer — staged installation" ++ PyStr.nl ++
                                PyStr.nl ++ "Index 99 → Exit") "center")
                    None (Some "purple")).

Definition mode_question : Event :=
  AskChoice "Choose install mode" ["venv"; "brek"; "system"] "venv".

(** The three [pip] commands of an installation under the interpreter
    [py], in the order of [main]. *)
Definition pip_steps (py : string) (b : bool) : list (list string) :=
  [ with_bypass b [py; "-m"; "pip"; "install"; "--upgrade"; "pip"];
    with_bypass b ([py; "-m"; "pip"; "install"] ++ Install.VCS_PACKAGES)%list;
    with_bypass b [py; "-m"; "pip"; "install"; "."; "--no-deps"] ].

(** Every command an installation with the selected [use_venv] would spawn
    if none failed, from a filesystem [present]: the provisioner first when
    the virtual environment is wanted and missing, then the three [pip]
    commands. *)
Definition install_plan (Path : string -> Pathlib.Path) (w : World)
  (args : Install.Args) (present : Pathlib.Path -> bool) (use_venv : bool)
  : list (list string) :=
  ((if use_venv && negb (present (Path (Install.venv args)))
    then [provision w (Path (Install.venv args))] else []) ++
   pip_steps (if use_venv
              then venv_python (os_name w) (Path (Install.venv args))
              else sys_executable w)
             (negb use_venv))%list.

(** The world [w] with an operator who gives [reply] to every choice. *)
Definition answering (w : World) (reply : string) : World :=
  {| sys_executable := sys_executable w;
     os_name := os_name w;
     script_dir := script_dir w;
     path_exists := path_exists w;
     child := child w;
     starts := starts w;
     decodes := decodes w;
     touches := touches w;
     markup_ok := markup_ok w;
     rmtree_stops := rmtree_stops w;
     prompt_reply := fun _ => reply;
     confirm_reply := confirm_reply w |}.

(** A spawned command that exited with a non-zero code. *)
Definition is_failure (e : Event) : bool :=
  match e with
  | Spawn _ _ r => negb (exit_status r =? 0)%Z
  | _ => false
  end.

(** A panel of the uninstaller that announces a failed command. *)
Definition is_failure_panel (e : Event) : bool :=
  match e with
  | Print (Rich.Panel (Rich.Markup t) None None) => prefix "[red]Command failed: " t
  | _ => false
  end.

(** How many events of a trace pass a test. *)
Definition count (f : Event -> bool) (tr : list Event) : nat :=
  length (filter f tr).

(** * Properties *)

Unset Implicit Arguments.
Local Open Scope list_scope.

(** ** Strings and traces *)

Lemma append_empty_r (t : string) : (t ++ EmptyString)%string = t.
Proof. induction t as [|c t IH]; simpl; [reflexivity | now rewrite IH]. Qed.

Lemma occurs_in_suffix (pre sub : string) : PyStr.occurs_in sub (pre ++ sub)%string.
Proof. exists pre, EmptyString. now rewrite append_empty_r. Qed.

Lemma occurs_in_middle (pre sub post : string) :
  PyStr.occurs_in sub (pre ++ sub ++ post)%string.
Proof. now exists pre, post. Qed.

Lemma prefix_append (sub post : string) : prefix sub (sub ++ post)%string = true.
Proof.
  induction sub as [|c sub IH]; simpl.
  - now destruct post.
  - destruct (ascii_dec c c) as [_|N]; [exact IH | now elim N].
Qed.

(** The test [contains] finds every occurrence. *)
Lemma occurs_in_contains (sub s : string) :
  PyStr.occurs_in sub s -> PyStr.contains sub s = true.
Proof.
  intros (pre & post & ->).
  induction pre as [|c pre IH].
  - destruct sub as [|c sub]; simpl.
    + destruct post; reflexivity.
    + destruct (ascii_dec c c) as [_|N]; [| now elim N].
      now rewrite prefix_append.
  - change (String c pre ++ sub ++ post)%string with (String c (pre ++ sub ++ post)%string).
    cbn [PyStr.contains]. rewrite IH. apply orb_true_r.
Qed.

Lemma commands_app (t1 t2 : list Event) :
  commands (t1 ++ t2) = commands t1 ++ commands t2.
Proof.
  induction t1 as [|e t1 IH]; simpl; [reflexivity|].
  destruct e; simpl; now rewrite IH.
Qed.

Lemma questions_app (t1 t2 : list Event) :
  questions (t1 ++ t2) = questions t1 ++ questions t2.
Proof.
  induction t1 as [|e t1 IH]; simpl; [reflexivity|].
  destruct e; simpl; now rewrite IH.
Qed.

Lemma asked_in_questions (q : string) (d : bool) (tr : list Event) :
  In (AskConfirm q d) tr -> In q (questions tr).
Proof.
  induction tr as [|e tr IH]; intros Hin; [destruct Hin|].
  destruct Hin as [->|Hin]; [now left|].
  destruct e; cbn [questions]; auto using in_cons.
Qed.

Lemma printed_app (t1 t2 : list Event) :
  printed (t1 ++ t2) = printed t1 ++ printed t2.
Proof.
  induction t1 as [|e t1 IH]; [reflexivity|].
  destruct e; cbn [app printed]; now rewrite IH.
Qed.

Lemma removals_app (t1 t2 : list Event) :
  removals (t1 ++ t2) = removals t1 ++ removals t2.
Proof.
  induction t1 as [|e t1 IH]; simpl; [reflexivity|].
  destruct e; simpl; now rewrite IH.
Qed.

Lemma clean_app (t1 t2 : list Event) : clean (t1 ++ t2) <-> clean t1 /\ clean t2.
Proof. apply Forall_app. Qed.

Lemma clean_nil : clean [].
Proof. constructor. Qed.

Lemma quiet_went_well (e : Event) : quiet e -> went_well e.
Proof. now destruct e. Qed.

Lemma clean_quiet (tr : list Event) (e : Event) :
  quiet e -> clean tr -> clean (tr ++ [e]).
Proof.
  intros Hq Hc. apply clean_app; split; [exact Hc|].
  constructor; [now apply quiet_went_well | constructor].
Qed.

(** A clean trace holds no command that ended with a non-zero code. *)
Lemma clean_spawn_zero (tr : list Event) (cmd : list string) (c : bool) (r : Exited) :
  clean tr -> In (Spawn cmd c r) tr -> exit_status r = 0%Z.
Proof.
  intros Hc Hin. unfold clean in Hc. rewrite Forall_forall in Hc.
  exact (Hc _ Hin).
Qed.

(** In an aborted trace a command that ended with a non-zero code is the
    last one handed to [subprocess.run]. *)
Lemma aborted_last_spawn (strip : string -> string) (w : World) (tr : list Event)
  (e : Exn) (cmd : list string) (c : bool) (r : Exited) :
  aborted strip w tr e -> In (Spawn cmd c r) tr -> exit_status r <> 0%Z ->
  c = true /\
  exists tr0,
    clean tr0 /\
    tr = tr0 ++ command_line cmd :: failure_tail strip w cmd r /\
    e = failure_exn strip w cmd r.
Proof.
  intros (tr0 & cmd' & Hc & [(r' & Hr & -> & ->) | ->]) Hin Hnz.
  - apply in_app_or in Hin as [Hin|Hin].
    + elim Hnz. exact (clean_spawn_zero _ _ _ _ Hc Hin).
    + destruct Hin as [E|Hin]; [discriminate|].
      unfold failure_tail in Hin.
      destruct Hin as [E|Hin].
      * inversion E; subst. split; [reflexivity|]. now exists tr0.
      * destruct (markup_ok w (error_text strip r')); [| destruct Hin].
        destruct Hin as [E|[]]. discriminate.
  - apply in_app_or in Hin as [Hin|Hin].
    + elim Hnz. exact (clean_spawn_zero _ _ _ _ Hc Hin).
    + destruct Hin as [E|[E|[]]]; discriminate.
Qed.

Lemma aborted_not_clean (strip : string -> string) (w : World) (tr : list Event)
  (e : Exn) :
  aborted strip w tr e -> ~ clean tr.
Proof.
  intros (tr0 & cmd & _ & [(r & Hr & -> & _) | ->]) Hc.
  - apply clean_app in Hc as [_ Hc].
    inversion Hc as [|? ? _ Hc']; subst.
    unfold failure_tail in Hc'. inversion Hc' as [|? ? Hw _]; subst.
    exact (Hr Hw).
  - apply clean_app in Hc as [_ Hc].
    inversion Hc as [|? ? _ Hc']; subst.
    inversion Hc' as [|? ? Hw _]; subst. exact Hw.
Qed.

(** ** Rules of the program logic *)

Section Rules.

Variables A B : Type.

Lemma triple_ret (a : A) (P : State -> Prop) (Q : Outcome A -> State -> Prop) :
  (forall s, P s -> Q (Returned a) s) -> triple P (ret a) Q.
Proof. intros H s HP. now apply H. Qed.

Lemma triple_bind (m : M A) (k : A -> M B) (P : State -> Prop)
  (R : A -> State -> Prop) (Q : Outcome B -> State -> Prop) :
  triple P m (fun o s => match o with
                         | Returned a => R a s
                         | Raised e => Q (Raised e) s
                         end) ->
  (forall a, triple (R a) (k a) Q) ->
  triple P (bind m k) Q.
Proof.
  intros Hm Hk s HP. unfold bind.
  specialize (Hm s HP). destruct (m s) as [[a|e] s1]; simpl in *.
  - now apply Hk.
  - exact Hm.
Qed.

Lemma keeps_bind (P : Event -> Prop) (m : M A) (k : A -> M B) :
  keeps P m -> (forall a, keeps P (k a)) -> keeps P (bind m k).
Proof.
  intros Hm Hk. apply triple_bind with (R := fun _ s => Forall P (trace s)).
  - intros s HP. specialize (Hm s HP). now destruct (fst (m s)).
  - exact Hk.
Qed.

Lemma keeps_ret (P : Event -> Prop) (a : A) : keeps P (ret a).
Proof. now apply triple_ret. Qed.

Lemma keeps_raise (P : Event -> Prop) (e : Exn) : keeps P (@raise A e).
Proof. intros s H. exact H. Qed.

Lemma keeps_if (P : Event -> Prop) (b : bool) (m1 m2 : M A) :
  keeps P m1 -> keeps P m2 -> keeps P (if b then m1 else m2).
Proof. now destruct b. Qed.

Lemma fail_fast_bind (strip : string -> string) (w : World) (m : M A) (k : A -> M B) :
  fail_fast strip w m -> (forall a, fail_fast strip w (k a)) ->
  fail_fast strip w (bind m k).
Proof.
  intros Hm Hk. apply triple_bind with (R := fun _ s => clean (trace s)).
  - exact Hm.
  - exact Hk.
Qed.

Lemma fail_fast_ret (strip : string -> string) (w : World) (a : A) :
  fail_fast strip w (ret a).
Proof. now apply triple_ret. Qed.

Lemma fail_fast_if (strip : string -> string) (w : World) (b : bool) (m1 m2 : M A) :
  fail_fast strip w m1 -> fail_fast strip w m2 ->
  fail_fast strip w (if b then m1 else m2).
Proof. now destruct b. Qed.

End Rules.

Lemma Forall_snoc (P : Event -> Prop) (tr : list Event) (e : Event) :
  Forall P tr -> P e -> Forall P (tr ++ [e]).
Proof. intros Ht He. apply Forall_app. auto. Qed.

Lemma keeps_emit (P : Event -> Prop) (e : Event) : P e -> keeps P (emit e).
Proof. intros H s HI. now apply Forall_snoc. Qed.

Lemma keeps_exists (P : Event -> Prop) (p : Pathlib.Path) : keeps P (exists_ p).
Proof. intros s H. exact H. Qed.

Lemma keeps_spawn (P : Event -> Prop) (w : World) (cmd : list string) (c : bool) :
  (forall r, P (Spawn cmd c r)) -> (forall e, P (SpawnFailed cmd c e)) ->
  keeps P (subprocess_run w cmd c).
Proof.
  intros H H' s HI. unfold subprocess_run. cbv zeta.
  destruct (starts w (spawned s)); cbn [negb].
  - destruct (c && negb (decodes w (spawned s))); now apply Forall_snoc.
  - now apply Forall_snoc.
Qed.

Lemma keeps_print_markup (P : Event -> Prop) (w : World) (r : Rich.Renderable) :
  P (Print r) -> keeps P (console_print_markup w r).
Proof.
  intros H s HI. unfold console_print_markup.
  destruct (markup_ok w (Rich.text_of r)); [now apply Forall_snoc | exact HI].
Qed.

Lemma keeps_rmtree (P : Event -> Prop) (w : World) (p : Pathlib.Path) :
  P (Rmtree p) -> keeps P (rmtree w p).
Proof.
  intros H s HI. unfold rmtree.
  destruct (fs s p); cbn [negb]; [| now apply Forall_snoc].
  destruct (rmtree_stops w p); now apply Forall_snoc.
Qed.

Lemma keeps_prompt (P : Event -> Prop) (w : World) (q : string)
  (choices : list string) (d : string) :
  P (AskChoice q choices d) -> keeps P (Prompt_ask w q choices d).
Proof.
  intros H. apply keeps_bind; [now apply keeps_emit | intros _; apply keeps_ret].
Qed.

Lemma keeps_confirm (P : Event -> Prop) (w : World) (q : string) (d : bool) :
  P (AskConfirm q d) -> keeps P (Confirm_ask w q d).
Proof.
  intros H. apply keeps_bind; [now apply keeps_emit | intros _; apply keeps_ret].
Qed.

Lemma fail_fast_emit (strip : string -> string) (w : World) (e : Event) :
  quiet e -> fail_fast strip w (emit e).
Proof. intros Hq s Hc. simpl. now apply clean_quiet. Qed.

Lemma fail_fast_exists (strip : string -> string) (w : World) (p : Pathlib.Path) :
  fail_fast strip w (exists_ p).
Proof. intros s H. exact H. Qed.

Lemma fail_fast_ask (strip : string -> string) (w : World) (q : string)
  (choices : list string) (d : string) :
  fail_fast strip w (Prompt_ask w q choices d).
Proof.
  apply fail_fast_bind; [now apply fail_fast_emit | intros _; apply fail_fast_ret].
Qed.

(** ** install.py: the runner *)

Section InstallRunner.

Variable strip : string -> string.
Variable w : World.

(** A required command, whatever happens to it. *)
Lemma install_run_eq (cmd : list string) (s : State) :
  Install.run strip w cmd true s =
  (match required_exn strip w cmd (spawned s) with
   | None => Returned tt
   | Some e => Raised e
   end,
   {| trace := trace s ++ run_events strip w cmd (spawned s);
      spawned := S (spawned s);
      fs := run_fs w (spawned s) (fs s) |}).
Proof.
  unfold Install.run, required_exn, run_events, run_fs, failure_tail, failure_exn,
    error_text.
  unfold bind at 1. unfold console_log at 1, emit at 1.
  unfold bind at 1. unfold subprocess_run. cbv zeta. cbn [trace spawned fs andb].
  destruct (starts w (spawned s)); cbn [negb].
  - destruct (decodes w (spawned s)); cbn [negb].
    + cbn [returncode stderr].
      destruct (exit_status (child w (spawned s)) =? 0)%Z; cbn [negb].
      * unfold ret. now rewrite <- app_assoc.
      * unfold bind at 1. unfold ret at 1.
        unfold bind at 1. unfold console_print_markup. cbn [Rich.text_of].
        destruct (markup_ok w
                    ("[red]Error:[/red] " ++ strip (err_text (child w (spawned s))))%string).
        -- unfold emit, raise. cbn [trace spawned fs].
           now rewrite <- !app_assoc.
        -- unfold raise. now rewrite <- !app_assoc.
    + now rewrite <- app_assoc.
  - now rewrite <- app_assoc.
Qed.

(** The same command when it is not required: the same state, and the exit
    is the one thing that is not raised. *)
Lemma install_run_loose (cmd : list string) (s : State) :
  Install.run strip w cmd false s =
  (match required_exn strip w cmd (spawned s) with
   | None => Returned tt
   | Some (SystemExit _) => Returned tt
   | Some e => Raised e
   end,
   {| trace := trace s ++ run_events strip w cmd (spawned s);
      spawned := S (spawned s);
      fs := run_fs w (spawned s) (fs s) |}).
Proof.
  unfold Install.run, required_exn, run_events, run_fs, failure_tail, failure_exn,
    error_text, abort_message.
  unfold bind at 1. unfold console_log at 1, emit at 1.
  unfold bind at 1. unfold subprocess_run. cbv zeta. cbn [trace spawned fs andb].
  destruct (starts w (spawned s)); cbn [negb].
  - destruct (decodes w (spawned s)); cbn [negb].
    + cbn [returncode stderr].
      destruct (exit_status (child w (spawned s)) =? 0)%Z; cbn [negb].
      * unfold ret. now rewrite <- app_assoc.
      * unfold bind at 1. unfold ret at 1.
        unfold bind at 1. unfold console_print_markup. cbn [Rich.text_of].
        destruct (markup_ok w
                    ("[red]Error:[/red] " ++ strip (err_text (child w (spawned s))))%string).
        -- unfold emit, ret. cbn [trace spawned fs].
           now rewrite <- !app_assoc.
        -- unfold raise. now rewrite <- !app_assoc.
    + now rewrite <- app_assoc.
  - now rewrite <- app_assoc.
Qed.

(** A command that is started, writes text and exits with 0: logged,
    spawned, and [run] returns. *)
Lemma install_run_zero (cmd : list string) (check : bool) (s : State) :
  starts w (spawned s) = true ->
  decodes w (spawned s) = true ->
  exit_status (child w (spawned s)) = 0%Z ->
  Install.run strip w cmd check s =
  (Returned tt,
   {| trace := trace s ++ [command_line cmd; Spawn cmd true (child w (spawned s))];
      spawned := S (spawned s);
      fs := touches w (spawned s) (fs s) |}).
Proof.
  intros Hs Hd Hz. apply Z.eqb_eq in Hz.
  destruct check; [rewrite install_run_eq | rewrite install_run_loose];
    unfold required_exn, run_events, run_fs; now rewrite Hs, Hd, Hz.
Qed.

Lemma commands_run_events (cmd : list string) (k : nat) :
  commands (run_events strip w cmd k) = [cmd].
Proof.
  unfold run_events, failure_tail.
  destruct (starts w k), (decodes w k); cbn [negb commands command_line];
    try reflexivity.
  destruct (exit_status (child w k) =? 0)%Z; cbn [commands]; [reflexivity|].
  now destruct (markup_ok w (error_text strip (child w k))).
Qed.

Lemma questions_run_events (cmd : list string) (k : nat) :
  questions (run_events strip w cmd k) = [].
Proof.
  unfold run_events, failure_tail.
  destruct (starts w k), (decodes w k); cbn [negb questions command_line];
    try reflexivity.
  destruct (exit_status (child w k) =? 0)%Z; cbn [questions]; [reflexivity|].
  now destruct (markup_ok w (error_text strip (child w k))).
Qed.

(** The events of a command that went through. *)
Lemma run_events_through (cmd : list string) (k : nat) :
  required_exn strip w cmd k = None ->
  run_events strip w cmd k = [command_line cmd; Spawn cmd true (child w k)] /\
  starts w k = true /\ decodes w k = true /\ exit_status (child w k) = 0%Z.
Proof.
  unfold required_exn, run_events.
  destruct (starts w k), (decodes w k); cbn [negb]; try discriminate.
  destruct (Z.eqb_spec (exit_status (child w k)) 0); [| discriminate].
  now intros _.
Qed.

(** How a required command goes on inside a longer computation. *)
Lemma bind_install_run (B : Type) (cmd : list string) (k : unit -> M B) (s : State) :
  bind (Install.run strip w cmd true) k s =
  match required_exn strip w cmd (spawned s) with
  | None =>
      k tt {| trace := trace s ++ run_events strip w cmd (spawned s);
              spawned := S (spawned s);
              fs := run_fs w (spawned s) (fs s) |}
  | Some e =>
      (Raised e,
       {| trace := trace s ++ run_events strip w cmd (spawned s);
          spawned := S (spawned s);
          fs := run_fs w (spawned s) (fs s) |})
  end.
Proof.
  unfold bind at 1. rewrite install_run_eq.
  now destruct (required_exn strip w cmd (spawned s)).
Qed.

Lemma fail_fast_run (cmd : list string) :
  fail_fast strip w (Install.run strip w cmd true).
Proof.
  intros s Hc. rewrite install_run_eq. cbn [fst snd trace].
  unfold required_exn, run_events.
  destruct (starts w (spawned s)); cbn [negb].
  - destruct (decodes w (spawned s)); cbn [negb].
    + destruct (Z.eqb_spec (exit_status (child w (spawned s))) 0) as [E|N].
      * apply clean_app; split; [exact Hc|].
        repeat constructor. exact E.
      * exists (trace s), cmd. split; [exact Hc|]. left.
        exists (child w (spawned s)). auto.
    + exists (trace s), cmd. split; [exact Hc|]. now right.
  - exists (trace s), cmd. split; [exact Hc|]. now right.
Qed.

End InstallRunner.

Create HintDb ff.
#[local] Hint Resolve fail_fast_bind fail_fast_ret fail_fast_if fail_fast_emit
  fail_fast_exists fail_fast_ask fail_fast_run : ff.
#[local] Hint Extern 1 (quiet _) => exact I : ff.

(** ** install.py: the steps *)

Section InstallSteps.

Variable strip : string -> string.
Variable Path : string -> Pathlib.Path.
Variable w : World.

Lemma fail_fast_ensure_virtualenv (p : Pathlib.Path) :
  fail_fast strip w (Install.ensure_virtualenv strip w p).
Proof.
  unfold Install.ensure_virtualenv, console_print.
  apply fail_fast_bind; [auto with ff | intros present].
  apply fail_fast_bind; [destruct present; auto 6 with ff | auto with ff].
Qed.

Lemma fail_fast_install_packages (py_exe : string) (packages : list string) (b : bool) :
  fail_fast strip w (Install.install_packages strip w py_exe packages b).
Proof. destruct packages; simpl; auto with ff. Qed.

Lemma fail_fast_install_local_package (py_exe : string) (b : bool) :
  fail_fast strip w (Install.install_local_package strip w py_exe b).
Proof. unfold Install.install_local_package. auto with ff. Qed.

Lemma fail_fast_select_mode (args : Install.Args) :
  fail_fast strip w (Install.select_mode w args).
Proof.
  unfold Install.select_mode.
  apply fail_fast_if; [| auto with ff].
  apply fail_fast_bind; [auto with ff | intros choice].
  auto with ff.
Qed.

Lemma fail_fast_install_with (args : Install.Args) (use_venv use_brek : bool) :
  fail_fast strip w (Install.install_with strip Path w args use_venv use_brek).
Proof.
  pose proof fail_fast_ensure_virtualenv.
  pose proof fail_fast_install_packages.
  pose proof fail_fast_install_local_package.
  unfold Install.install_with, console_print.
  auto 20 with ff.
Qed.

Lemma fail_fast_main (args : Install.Args) :
  fail_fast strip w (Install.main strip Path w args).
Proof.
  pose proof fail_fast_select_mode. pose proof fail_fast_install_with.
  unfold Install.main, console_print. auto with ff.
Qed.

End InstallSteps.

(** ** install.py: what a step may add to the trace *)

Section InstallKeeps.

Variable strip : string -> string.
Variable Path : string -> Pathlib.Path.
Variable w : World.
Variable P : Event -> Prop.

(** What holds of the line, of the call and of the panel holds of every
    event [run] leaves. *)
Lemma run_events_keep (cmd : list string) (k : nat) :
  P (command_line cmd) ->
  (forall r, P (Spawn cmd true r)) ->
  (forall e, P (SpawnFailed cmd true e)) ->
  (forall r, P (error_panel strip r)) ->
  Forall P (run_events strip w cmd k).
Proof.
  intros Hl Hs Hf He.
  unfold run_events, failure_tail. constructor; [exact Hl|].
  destruct (starts w k), (decodes w k); cbn [negb];
    try (constructor; [apply Hf | constructor]).
  destruct (exit_status (child w k) =? 0)%Z;
    [constructor; [apply Hs | constructor] |].
  constructor; [apply Hs|].
  destruct (markup_ok w (error_text strip (child w k)));
    [constructor; [apply He | constructor] | constructor].
Qed.

Lemma keeps_install_run (cmd : list string) (check : bool) :
  P (command_line cmd) ->
  (forall r, P (Spawn cmd true r)) ->
  (forall e, P (SpawnFailed cmd true e)) ->
  (forall r, P (error_panel strip r)) ->
  keeps P (Install.run strip w cmd check).
Proof.
  intros Hl Hs Hf He s HI.
  pose proof (run_events_keep cmd (spawned s) Hl Hs Hf He) as Hev.
  destruct check; [rewrite install_run_eq | rewrite install_run_loose];
    cbn [snd trace]; apply Forall_app; auto.
Qed.

End InstallKeeps.

(** Takes a computation apart along the rules; [side] settles what each
    single event has to satisfy. *)
Ltac keeps_steps side :=
  unfold console_print, console_log;
  repeat first
    [ simple apply keeps_ret
    | simple apply keeps_raise
    | simple apply keeps_exists
    | simple apply keeps_emit; side
    | simple apply keeps_install_run; [side | intro; side | intro; side | intro; side]
    | simple apply keeps_prompt; side
    | simple apply keeps_confirm; side
    | simple apply keeps_rmtree; side
    | simple apply keeps_if
    | simple apply keeps_bind; [| intro] ].
(** ** install.py: mode selection *)

Section InstallMode.

Variable w : World.

(** With [--yes] the selection asks nothing and settles on the virtual
    environment, whatever the other flags are. *)
Lemma select_mode_yes (args : Install.Args) (s : State) :
  Install.yes args = true ->
  Install.select_mode w args s = (Returned (true, false), s).
Proof.
  intros Hy. unfold Install.select_mode. rewrite Hy.
  now rewrite andb_false_r.
Qed.

(** Without [--yes], a forcing flag is taken as given, and nothing is
    asked. *)
Lemma select_mode_forced (args : Install.Args) (s : State) :
  Install.yes args = false ->
  Install.brek args || Install.no_venv args = true ->
  Install.select_mode w args s =
  (Returned (negb (Install.no_venv args), Install.brek args), s).
Proof.
  intros Hy Hf. unfold Install.select_mode. now rewrite Hy, Hf.
Qed.

(** With no flag at all the operator is asked, once. *)
Lemma select_mode_asked (args : Install.Args) (s : State) :
  Install.yes args = false ->
  Install.brek args = false ->
  Install.no_venv args = false ->
  Install.select_mode w args s =
  (Returned (let choice := accepted ["venv"; "brek"; "system"] "venv"
                                    (prompt_reply w "Choose install mode") in
             if String.eqb choice "venv" then (true, false)
             else if String.eqb choice "brek" then (false, true)
             else (false, false)),
   {| trace := trace s ++ [mode_question];
      spawned := spawned s;
      fs := fs s |}).
Proof.
  intros Hy Hb Hn. unfold Install.select_mode. rewrite Hy, Hb, Hn.
  cbn [orb negb andb]. cbv zeta.
  unfold bind at 1. unfold Prompt_ask. unfold bind at 1, emit at 1, ret at 1.
  destruct (String.eqb _ "venv"); [reflexivity|].
  now destruct (String.eqb _ "brek").
Qed.

End InstallMode.

(** ** install.py: the environment resolver *)

Section InstallResolver.

Variable strip : string -> string.
Variable w : World.

(** [ensure_virtualenv], case by case. *)
Lemma ensure_virtualenv_run (p : Pathlib.Path) (s : State) :
  Install.ensure_virtualenv strip w p s =
  if fs s p then
    (Returned (venv_python (os_name w) p, venv_pip (os_name w) p),
     {| trace := trace s ++
          [Print (Rich.Panel (Rich.Markup ("Using existing virtualenv: [bold]" ++
                                           Pathlib.to_str (os_name w) p ++ "[/bold]")%string)
                             (Some "Virtualenv") None)];
        spawned := spawned s; fs := fs s |})
  else
    (match required_exn strip w (provision w p) (spawned s) with
     | None => Returned (venv_python (os_name w) p, venv_pip (os_name w) p)
     | Some e => Raised e
     end,
     {| trace := trace s ++
          Print (Rich.Panel (Rich.Markup ("Creating virtualenv at: [bold]" ++
                                          Pathlib.to_str (os_name w) p ++ "[/bold]")%string)
                            (Some "Virtualenv") None) ::
          run_events strip w (provision w p) (spawned s);
        spawned := S (spawned s);
        fs := run_fs w (spawned s) (fs s) |}).
Proof.
  unfold Install.ensure_virtualenv, venv_python, venv_pip.
  unfold bind at 1. unfold exists_ at 1. cbv zeta.
  destruct (fs s p) eqn:Hp.
  - unfold bind, console_print, emit, ret; simpl.
    now destruct (String.eqb (os_name w) "nt").
  - unfold bind at 1. unfold bind at 1. unfold console_print at 1, emit at 1.
    fold (provision w p).
    rewrite install_run_eq. cbn [trace spawned fs].
    destruct (required_exn strip w (provision w p) (spawned s)).
    + now rewrite <- app_assoc.
    + unfold ret. rewrite <- app_assoc.
      now destruct (String.eqb (os_name w) "nt").
Qed.

End InstallResolver.

(** ** pathlib: how a path below a directory reads *)

Lemma append_assoc (a b c : string) : ((a ++ b) ++ c = a ++ b ++ c)%string.
Proof. induction a as [|x a IH]; simpl; [reflexivity | now rewrite IH]. Qed.

Lemma join_two_below (sep a b : string) (xs : list string) :
  PyStr.join sep (xs ++ [a; b]) = (dir_prefix sep xs ++ a ++ sep ++ b)%string.
Proof.
  unfold PyStr.join.
  induction xs as [|x xs IH]; [reflexivity|].
  change (String.concat sep ((x :: xs) ++ [a; b]))
    with (String.concat sep (x :: (xs ++ [a; b]))).
  destruct xs as [|y ys].
  - simpl. now rewrite !append_assoc.
  - change (String.concat sep (x :: (y :: ys) ++ [a; b]))
      with (x ++ sep ++ String.concat sep ((y :: ys) ++ [a; b]))%string.
    rewrite IH. simpl. now rewrite !append_assoc.
Qed.

Lemma to_str_below (os : string) (p : Pathlib.Path) (xs : list string) :
  xs <> [] ->
  Pathlib.to_str os {| Pathlib.anchor := Pathlib.anchor p; Pathlib.parts := Pathlib.parts p ++ xs |} =
  (Pathlib.anchor p ++ PyStr.join (Pathlib.sep os) (Pathlib.parts p ++ xs))%string.
Proof.
  intros Hx. unfold Pathlib.to_str; simpl.
  destruct (Pathlib.anchor p); [|reflexivity].
  destruct (Pathlib.parts p ++ xs) eqn:E; [|reflexivity].
  apply app_eq_nil in E as [_ E]. contradiction.
Qed.

Lemma to_str_two_below (os a b : string) (p : Pathlib.Path) :
  Pathlib.to_str os (p // a // b) =
  ((Pathlib.anchor p ++ dir_prefix (Pathlib.sep os) (Pathlib.parts p)) ++
   a ++ Pathlib.sep os ++ b)%string.
Proof.
  unfold Pathlib.joinpath; simpl. rewrite <- app_assoc. simpl.
  rewrite (@to_str_below os p [a; b]) by discriminate.
  now rewrite join_two_below, append_assoc.
Qed.

(** ** install.py: a run that gets to its end *)

Lemma bind_returned (A B : Type) (m : M A) (k : A -> M B) (s s' : State) (b : B) :
  bind m k s = (Returned b, s') ->
  exists a s1, m s = (Returned a, s1) /\ k a s1 = (Returned b, s').
Proof.
  unfold bind. destruct (m s) as [[a|e] s1]; [|discriminate].
  intros H. now exists a, s1.
Qed.

Lemma emit_returned (e : Event) (s s' : State) (u : unit) :
  emit e s = (Returned u, s') -> trace s' = trace s ++ [e].
Proof. unfold emit. intros H. now inversion H. Qed.

Section InstallCompletes.

Variable strip : string -> string.
Variable Path : string -> Pathlib.Path.
Variable w : World.

(** A required command that lets [run] return was started, wrote text and
    exited with 0. *)
Lemma install_run_returned (cmd : list string) (s s' : State) (u : unit) :
  Install.run strip w cmd true s = (Returned u, s') ->
  exit_status (child w (spawned s)) = 0%Z /\
  trace s' = trace s ++ [command_line cmd; Spawn cmd true (child w (spawned s))].
Proof.
  rewrite install_run_eq.
  destruct (required_exn strip w cmd (spawned s)) eqn:E; [discriminate|].
  apply run_events_through in E as (Hev & _ & _ & Hz).
  intros H. inversion H. cbn [trace]. now rewrite Hev.
Qed.

Lemma install_packages_some (py_exe : string) (packages : list string) (b : bool) :
  packages <> [] ->
  Install.install_packages strip w py_exe packages b =
  Install.run strip w
    (if b then ([py_exe; "-m"; "pip"; "install"] ++ packages) ++ ["--break-system-packages"]
     else [py_exe; "-m"; "pip"; "install"] ++ packages) true.
Proof. destruct packages; [contradiction | reflexivity]. Qed.

Lemma incl_pip_install (py_exe : string) (packages : list string) (b : bool) :
  incl packages
    (if b then ([py_exe; "-m"; "pip"; "install"] ++ packages) ++ ["--break-system-packages"]
     else [py_exe; "-m"; "pip"; "install"] ++ packages).
Proof.
  intros pkg Hin. destruct b.
  - apply in_or_app. left. apply in_or_app. now right.
  - apply in_or_app. now right.
Qed.

(** When the installation from a selected pair returns, the dependencies
    were installed by one [pip install] that names every entry of
    [VCS_PACKAGES], and the completion message is the last thing printed. *)
Lemma install_with_returned (args : Install.Args) (use_venv use_brek : bool)
  (s s' : State) (u : unit) :
  Install.install_with strip Path w args use_venv use_brek s = (Returned u, s') ->
  exists tr0 cmd r evs,
    trace s' = tr0 ++ Spawn cmd true r :: evs ++ install_completed /\
    is_pip_install cmd = true /\
    incl Install.VCS_PACKAGES cmd.
Proof.
  unfold Install.install_with. intros H.
  do 5 (apply bind_returned in H as (? & ? & _ & H); cbv beta zeta in H).
  apply bind_returned in H as (? & s6 & Hdeps & H).
  apply bind_returned in H as (? & s7 & Hp & H).
  apply bind_returned in H as (? & s8 & Hloc & H).
  apply bind_returned in H as (? & s9 & Hc1 & Hc2).
  apply emit_returned in Hp, Hc1, Hc2.
  unfold Install.install_local_package in Hloc.
  apply install_run_returned in Hloc as [_ Hloc].
  rewrite install_packages_some in Hdeps by discriminate.
  apply install_run_returned in Hdeps as [_ Hdeps].
  rewrite Hc2, Hc1, Hloc, Hp, Hdeps.
  match type of Hdeps with
  | _ = _ ++ [command_line ?c; Spawn ?c true ?r] =>
      exists (trace x8 ++ [command_line c]), c, r
  end.
  match type of Hloc with
  | _ = _ ++ [?l; ?sp] =>
      match type of Hp with
      | _ = _ ++ [?p] => exists [p; l; sp]
      end
  end.
  split; [| split].
  - unfold install_completed. rewrite <- !app_assoc. reflexivity.
  - destruct (Install.break_system_flag use_venv); reflexivity.
  - apply incl_pip_install.
Qed.

End InstallCompletes.
(** ** Stepping through a computation *)

Lemma bind_emit (B : Type) (e : Event) (k : unit -> M B) (s : State) :
  bind (emit e) k s =
  k tt {| trace := trace s ++ [e]; spawned := spawned s; fs := fs s |}.
Proof. reflexivity. Qed.

Lemma bind_ret (A B : Type) (a : A) (k : A -> M B) (s : State) :
  bind (ret a) k s = k a s.
Proof. reflexivity. Qed.

Lemma bind_exists (B : Type) (p : Pathlib.Path) (k : bool -> M B) (s : State) :
  bind (exists_ p) k s = k (fs s p) s.
Proof. reflexivity. Qed.

Lemma bind_confirm (B : Type) (w : World) (q : string) (d : bool) (k : bool -> M B)
  (s : State) :
  bind (Confirm_ask w q d) k s =
  k (confirm_reply w q)
    {| trace := trace s ++ [AskConfirm q d]; spawned := spawned s; fs := fs s |}.
Proof. reflexivity. Qed.

Lemma bind_assoc (A B C : Type) (m : M A) (f : A -> M B) (g : B -> M C) (s : State) :
  bind (bind m f) g s = bind m (fun a => bind (f a) g) s.
Proof. unfold bind. now destruct (m s) as [[a|e] s1]. Qed.

(** ** install.py: the whole run against its plan *)

(** Reads the commands and the questions off a trace built from printed
    lines and required commands. *)
Ltac read_trace :=
  repeat first
    [ rewrite commands_app
    | rewrite commands_run_events
    | rewrite questions_app
    | rewrite questions_run_events
    | progress cbn [commands questions app] ].

(** Closes one end of the case analysis of [install_with_run]: the state
    and the outcome are known there. *)
Ltac plan_leaf :=
  unfold emit; cbn [fst snd trace fs spawned];
  rewrite <- ?app_assoc; cbn [app];
  eexists; eexists; (split; [reflexivity |]);
  read_trace;
  repeat match goal with |- _ /\ _ => split end;
  first [reflexivity | intros; first [reflexivity | discriminate]].

(** Runs one required command: the run stops there, or goes on. *)
Ltac required_step :=
  rewrite bind_install_run; cbn [spawned trace fs];
  match goal with
  | |- context [required_exn ?strip ?w ?c ?k] =>
      destruct (required_exn strip w c k); [plan_leaf |]
  end.

(** Runs the three [pip] steps of [install_with], one case for each place
    where the run can stop. *)
Ltac three_pip_steps :=
  rewrite bind_emit; required_step;
  rewrite bind_emit, install_packages_some by discriminate;
  required_step;
  rewrite bind_emit; unfold Install.install_local_package; cbv zeta;
  required_step;
  rewrite bind_emit; plan_leaf.

Section InstallPlan.

Variable strip : string -> string.
Variable Path : string -> Pathlib.Path.
Variable w : World.

(** The value of the selection does not depend on the state it starts
    from. *)
Lemma select_mode_value (args : Install.Args) :
  exists use_venv use_brek,
    forall s, fst (Install.select_mode w args s) = Returned (use_venv, use_brek).
Proof.
  destruct (Install.yes args) eqn:Hy.
  - exists true, false. intros s. now rewrite select_mode_yes.
  - destruct (Install.brek args || Install.no_venv args) eqn:Hf.
    + do 2 eexists. intros s. now rewrite select_mode_forced.
    + apply orb_false_elim in Hf as [Hb Hn].
      do 2 eexists. intros s. rewrite (select_mode_asked w args s Hy Hb Hn).
      cbn [fst]. apply f_equal. apply surjective_pairing.
Qed.

(** The selection returns [selected], from every state. *)
Lemma selected_value (args : Install.Args) (s : State) :
  fst (Install.select_mode w args s) = Returned (selected w args).
Proof.
  destruct (select_mode_value args) as (use_venv & use_brek & Hv).
  unfold selected. now rewrite (Hv (start w)), (Hv s).
Qed.

(** [main] from the start is the installation from the selected pair, from
    a state that holds the banner and, when no flag decided, the question. *)
Lemma install_main_eq (args : Install.Args) :
  Install.main strip Path w args (start w) =
  Install.install_with strip Path w args
    (fst (selected w args)) (snd (selected w args))
    {| trace := install_banner ::
                (if undecided args then [mode_question] else []);
       spawned := 0;
       fs := path_exists w |}.
Proof.
  unfold Install.main, console_print. rewrite bind_emit.
  unfold bind at 1. unfold selected, undecided.
  destruct (Install.yes args) eqn:Hy.
  - rewrite !select_mode_yes by exact Hy. rewrite andb_false_r. reflexivity.
  - destruct (Install.brek args || Install.no_venv args) eqn:Hf.
    + rewrite !select_mode_forced by assumption. reflexivity.
    + pose proof Hf as Hf'. apply orb_false_elim in Hf' as [Hb Hn].
      rewrite !select_mode_asked by assumption. reflexivity.
Qed.

(** What the installation from a selected pair adds to a state: commands
    that are a prefix of the plan, the whole plan when it returns, and no
    question. *)
Lemma install_with_run (args : Install.Args) (use_venv use_brek : bool) (s : State) :
  exists seg rest,
    trace (snd (Install.install_with strip Path w args use_venv use_brek s)) =
    trace s ++ seg /\
    install_plan Path w args (fs s) use_venv = commands seg ++ rest /\
    (fst (Install.install_with strip Path w args use_venv use_brek s) = Returned tt ->
     rest = []) /\
    questions seg = [] /\
    commands seg <> [].
Proof.
  unfold Install.install_with, install_plan, pip_steps, with_bypass,
    Install.break_system_flag, console_print.
  destruct use_venv; cbn [negb andb].
  - rewrite bind_ret, bind_assoc.
    unfold Install.ensure_virtualenv, console_print.
    rewrite bind_assoc, bind_exists.
    destruct (fs s (Path (Install.venv args))) eqn:Hex; cbn [negb].
    + rewrite bind_assoc, bind_emit, bind_ret, bind_ret.
      fold (venv_python (os_name w) (Path (Install.venv args))).
      cbn [fst]. three_pip_steps.
    + rewrite !bind_assoc, bind_emit.
      fold (provision w (Path (Install.venv args))).
      required_step.
      rewrite bind_ret, bind_ret.
      fold (venv_python (os_name w) (Path (Install.venv args))).
      cbn [fst]. three_pip_steps.
  - rewrite bind_emit, bind_ret. three_pip_steps.
Qed.

End InstallPlan.
(** ** install.py: the claims *)

(** [keeps_steps], looking into the two install steps as well. *)
Ltac install_steps side :=
  repeat first
    [ progress keeps_steps side
    | rewrite install_packages_some by discriminate
    | progress (unfold Install.install_local_package, Install.ensure_virtualenv;
                cbv zeta) ].

Lemma targets_commands (use_venv : bool) (target : string) (tr : list Event) :
  Forall (targets use_venv target) tr ->
  forall cmd, In cmd (commands tr) -> well_aimed use_venv target cmd.
Proof.
  induction 1 as [|e tr He _ IH]; intros cmd Hin; [destruct Hin|].
  destruct e; cbn [commands] in Hin; try exact (IH _ Hin);
    (destruct Hin as [<-|Hin]; [exact He | exact (IH _ Hin)]).
Qed.

Lemma quiet_targets (use_venv : bool) (target : string) (tr : list Event) :
  Forall quiet tr -> Forall (targets use_venv target) tr.
Proof. apply Forall_impl. now intros [ | | | | | | ]. Qed.

Section InstallClaims.

Variable strip : string -> string.
Variable Path : string -> Pathlib.Path.
Variable w : World.

Lemma keeps_select_mode (P : Event -> Prop) (args : Install.Args) :
  (forall q cs d, P (AskChoice q cs d)) -> keeps P (Install.select_mode w args).
Proof.
  intros H. unfold Install.select_mode.
  keeps_steps ltac:(apply H).
Qed.

(** [main] is its banner, the selection, and the installation from the
    selected pair; nothing is spawned before the pair is selected. *)
Lemma main_unfold (args : Install.Args) (use_venv use_brek : bool) :
  (forall s, fst (Install.select_mode w args s) = Returned (use_venv, use_brek)) ->
  exists s1,
    Install.main strip Path w args (start w) =
    Install.install_with strip Path w args use_venv use_brek s1 /\
    Forall quiet (trace s1).
Proof.
  intros Hv. unfold Install.main.
  unfold bind at 1. unfold console_print at 1, emit at 1.
  unfold bind at 1.
  match goal with
  | |- context [Install.select_mode w args ?s0] =>
      specialize (Hv s0);
      assert (Hq : Forall quiet (trace (snd (Install.select_mode w args s0))))
        by (apply (@keeps_select_mode quiet args); [intros; exact I |];
            repeat constructor);
      destruct (Install.select_mode w args s0) as [o s1]
  end.
  simpl in Hv, Hq. subst o. now exists s1.
Qed.

(** The interpreter a selected pair makes the run work on. *)
Lemma install_with_targets (args : Install.Args) (use_venv use_brek : bool) :
  keeps (targets use_venv
           (if use_venv then venv_python (os_name w) (Path (Install.venv args))
            else sys_executable w))
        (Install.install_with strip Path w args use_venv use_brek).
Proof.
  unfold Install.install_with.
  apply keeps_bind; [keeps_steps ltac:(exact I) | intros _].
  match goal with
  | |- keeps ?P (bind ?m ?k) =>
      apply triple_bind with
        (R := fun py s => Forall P (trace s) /\
                py = if use_venv then venv_python (os_name w) (Path (Install.venv args))
                     else sys_executable w)
  end.
  - intros s Hs. destruct use_venv.
    + unfold bind. rewrite ensure_virtualenv_run. cbv zeta.
      destruct (fs s (Path (Install.venv args))); cbn [fst snd trace].
      * split; [apply Forall_snoc; [exact Hs | exact I] | reflexivity].
      * assert (Hev : Forall (targets true (venv_python (os_name w) (Path (Install.venv args))))
                        (trace s ++
                         Print (Rich.Panel
                                  (Rich.Markup ("Creating virtualenv at: [bold]" ++
                                     Pathlib.to_str (os_name w) (Path (Install.venv args)) ++
                                     "[/bold]")%string)
                                  (Some "Virtualenv") None) ::
                         run_events strip w (provision w (Path (Install.venv args)))
                           (spawned s))).
        { apply Forall_app. split; [exact Hs|]. constructor; [exact I|].
          apply run_events_keep; try exact I; intros ?;
            first [exact I | intros Hpip; vm_compute in Hpip; discriminate]. }
        destruct (required_exn strip w (provision w (Path (Install.venv args))) (spawned s));
          cbn [fst snd trace]; [exact Hev | split; [exact Hev | reflexivity]].
    + simpl. auto.
  - intros py s [Hs ->]. revert s Hs.
    match goal with
    | |- forall s, Forall ?P (trace s) -> Forall ?P (trace (snd (?m s))) =>
        change (keeps P m)
    end.
    destruct use_venv;
      install_steps ltac:(first [exact I | vm_compute; intuition congruence]).
Qed.

(** C2, evaluated on the code.  With [--no-venv] and [--yes] together the
    selection falls into the [--yes] branch: it asks nothing, selects the
    virtual environment, and the bypass flag derived from it is false,
    whatever [--venv] and [--brek] are. *)
Theorem no_venv_with_yes_leaves_protection_on
  (venv_arg : string) (brek_arg : bool) (s : State) :
  Install.select_mode w
    {| Install.no_venv := true; Install.venv := venv_arg;
       Install.brek := brek_arg; Install.yes := true |} s
  = (Returned (true, false), s) /\
  Install.break_system_flag true = false.
Proof. split; [now apply select_mode_yes | reflexivity]. Qed.

(** Without [--yes], [--no-venv] does switch the protection off. *)
Lemma no_venv_without_yes (args : Install.Args) (s : State) :
  Install.no_venv args = true -> Install.yes args = false ->
  exists use_brek,
    Install.select_mode w args s = (Returned (false, use_brek), s) /\
    Install.break_system_flag false = true.
Proof.
  intros Hn Hy. exists (Install.brek args). split; [|reflexivity].
  rewrite select_mode_forced; [now rewrite Hn | exact Hy |].
  rewrite Hn. apply orb_true_r.
Qed.

(** C9.  With [--yes] and neither [--no-venv] nor [--brek], the selection
    returns the virtual environment without touching the trace, the mode is
    [UseVirtualEnv], the bypass flag is false, and no event of the whole
    run is a question to the operator. *)
Theorem yes_alone_selects_virtualenv (args : Install.Args) :
  Install.yes args = true ->
  Install.no_venv args = false ->
  Install.brek args = false ->
  (forall s, Install.select_mode w args s = (Returned (true, false), s)) /\
  install_mode true false = UseVirtualEnv /\
  Install.break_system_flag true = false /\
  Forall (fun e => is_question e = false) (install_trace strip Path w args).
Proof.
  intros Hy _ _. repeat split.
  - intros s. now apply select_mode_yes.
  - unfold install_trace, Install.main.
    unfold bind at 1. unfold console_print at 1, emit at 1.
    unfold bind at 1. rewrite select_mode_yes by exact Hy.
    cbv beta iota.
    change (fst (true, false)) with true. change (snd (true, false)) with false.
    match goal with
    | |- Forall ?P (trace (snd (?m ?s0))) =>
        assert (K : keeps P m); [| apply K; repeat constructor]
    end.
    unfold Install.install_with.
    install_steps ltac:(reflexivity).
Qed.

(** The selection settles on the pair of the filtered mode with the
    virtual environment exactly when [--brek] is the only flag. *)
Lemma selected_brek_alone (args : Install.Args) :
  selected w args = (true, true) <->
  Install.brek args = true /\ Install.no_venv args = false /\ Install.yes args = false.
Proof.
  unfold selected.
  destruct (Install.yes args) eqn:Hy.
  - rewrite select_mode_yes by exact Hy. cbn [fst]. split; [discriminate | intuition discriminate].
  - destruct (Install.brek args || Install.no_venv args) eqn:Hf.
    + rewrite select_mode_forced by assumption. cbn [fst].
      destruct (Install.brek args), (Install.no_venv args); cbn [negb];
        split; intuition congruence.
    + pose proof Hf as Hf'. apply orb_false_elim in Hf' as [Hb Hn].
      rewrite select_mode_asked by assumption. cbn [fst]. cbv zeta.
      destruct (String.eqb _ "venv"); [split; [discriminate | rewrite Hb; intuition discriminate] |].
      destruct (String.eqb _ "brek"); split;
        first [discriminate | rewrite Hb; intuition discriminate].
Qed.


(** C4, evaluated on the code.  In a run of the installer, a command that
    ends with a non-zero exit code is the last one: every command before it
    had gone well and the run ends in an exception, a non-zero process
    exit.  When [rich] takes the error text as markup, the panel with that
    text is the last event and the exception is [SystemExit]; when it does
    not, no panel is printed, the command is the last event and the
    exception is [MarkupError].  When every command goes well the run
    returns, the exit code is 0, and the completion message is the last
    thing printed.  A single command that starts, writes text and exits with
    0 lets [run] return. *)
Theorem install_stops_at_first_failure (args : Install.Args) :
  (forall cmd c r,
      In (Spawn cmd c r) (install_trace strip Path w args) ->
      exit_status r <> 0%Z ->
      c = true /\
      exit_code (install_outcome strip Path w args) <> 0%Z /\
      exists tr0,
        clean tr0 /\
        if markup_ok w (error_text strip r) then
          install_trace strip Path w args =
          tr0 ++ [command_line cmd; Spawn cmd true r; error_panel strip r] /\
          install_outcome strip Path w args = Raised (abort_message cmd r)
        else
          install_trace strip Path w args =
          tr0 ++ [command_line cmd; Spawn cmd true r] /\
          install_outcome strip Path w args = Raised MarkupError) /\
  (clean (install_trace strip Path w args) ->
   install_outcome strip Path w args = Returned tt /\
   exit_code (install_outcome strip Path w args) = 0%Z /\
   exists tr0, install_trace strip Path w args = tr0 ++ install_completed) /\
  (forall cmd check s,
      starts w (spawned s) = true ->
      decodes w (spawned s) = true ->
      exit_status (child w (spawned s)) = 0%Z ->
      fst (Install.run strip w cmd check s) = Returned tt).
Proof.
  pose proof (fail_fast_main strip Path w args (start w) clean_nil) as Hff.
  unfold install_trace, install_outcome.
  destruct (Install.main strip Path w args (start w)) as [[[]|e] s'] eqn:Hmain;
    cbn [fst snd] in Hff |- *.
  - split; [| split].
    + intros cmd c r Hin Hnz. elim Hnz. exact (clean_spawn_zero _ _ _ _ Hff Hin).
    + intros _. split; [reflexivity | split; [reflexivity|]].
      destruct (select_mode_value w args) as (use_venv & use_brek & Hv).
      destruct (main_unfold args _ _ Hv) as (s1 & Hm & _).
      rewrite Hm in Hmain.
      apply install_with_returned in Hmain as (tr0 & cmd & r & evs & Ht & _).
      exists (tr0 ++ Spawn cmd true r :: evs). rewrite Ht.
      now rewrite <- app_assoc.
    + intros cmd check s Hs Hd Hz. now rewrite install_run_zero.
  - split; [| split].
    + intros cmd c r Hin Hnz.
      destruct (aborted_last_spawn _ _ _ _ _ _ _ Hff Hin Hnz)
        as (Hc & tr0 & Hcl & Ht & He).
      split; [exact Hc | split; [discriminate|]].
      exists tr0. split; [exact Hcl|].
      unfold failure_tail, failure_exn in Ht, He.
      destruct (markup_ok w (error_text strip r)); subst e; split;
        first [exact Ht | reflexivity].
    + intros Hc. elim (aborted_not_clean _ _ _ _ Hff Hc).
    + intros cmd check s Hs Hd Hz. now rewrite install_run_zero.
Qed.


(** C1, evaluated on the code.  Whenever the selection settles on the
    filtered mode ([use_brek] true, by [--brek] or by the answer [brek])
    and the run gets to its end, it has spawned a [pip install] that names
    every entry of [VCS_PACKAGES], version-control locations included. *)
Theorem filtered_mode_installs_vcs_packages (args : Install.Args) (use_venv : bool) :
  (forall s, fst (Install.select_mode w args s) = Returned (use_venv, true)) ->
  install_outcome strip Path w args = Returned tt ->
  exists cmd r,
    In (Spawn cmd true r) (install_trace strip Path w args) /\
    is_pip_install cmd = true /\
    incl Install.VCS_PACKAGES cmd /\
    existsb from_vcs cmd = true.
Proof.
  intros Hv Hret. unfold install_outcome in Hret. unfold install_trace.
  destruct (main_unfold args _ _ Hv) as (s1 & Hm & _). rewrite Hm in Hret |- *.
  destruct (Install.install_with strip Path w args use_venv true s1)
    as [o s'] eqn:Hw.
  simpl in Hret. subst o.
  apply install_with_returned in Hw as (tr0 & cmd & r & evs & Ht & Hpip & Hincl).
  exists cmd, r. simpl. rewrite Ht. repeat split.
  - apply in_or_app. right. now left.
  - exact Hpip.
  - exact Hincl.
  - apply existsb_exists.
    exists "badges @ git+https://github.com/EntySec/Badges". split.
    + apply Hincl. now left.
    + reflexivity.
Qed.

End InstallClaims.
(** ** uninstall.py: the runner and the loop *)

Section UninstallSteps.

Variable w : World.

(** [run], whatever the child does: logged and handed to
    [subprocess.run]; when the command can be started, a panel follows
    when the check is on and the exit code is not 0, and [run] returns. *)
Lemma uninstall_run_eq (cmd : list string) (check : bool) (s : State) :
  Uninstall.run w cmd check s =
  if starts w (spawned s) then
    (Returned tt,
     {| trace := trace s ++
          [command_line cmd; Spawn cmd false (child w (spawned s))] ++
          (if check && negb (exit_status (child w (spawned s)) =? 0)%Z
           then [failure_panel cmd] else []);
        spawned := S (spawned s);
        fs := touches w (spawned s) (fs s) |})
  else
    (Raised OSError,
     {| trace := trace s ++ [command_line cmd; SpawnFailed cmd false OSError];
        spawned := S (spawned s);
        fs := fs s |}).
Proof.
  unfold Uninstall.run.
  unfold bind at 1. unfold console_log at 1, emit at 1.
  unfold bind at 1. unfold subprocess_run. cbv zeta. cbn [trace spawned fs andb].
  destruct (starts w (spawned s)); cbn [negb].
  - cbn [returncode].
    destruct (check && negb (exit_status (child w (spawned s)) =? 0)%Z);
      unfold console_print, emit, ret; cbn [trace spawned fs];
      now rewrite <- !app_assoc.
  - now rewrite <- app_assoc.
Qed.

(** One turn of the loop. *)
Lemma uninstall_turn_eq (python_exe : string) (break_system : bool) (pkg : string)
  (s : State) :
  bind (console_print
          (Rich.Panel (Rich.Markup ("Uninstalling package: [bold]" ++ pkg ++ "[/bold]")%string)
                      None None))
       (fun _ => Uninstall.run w (uninstall_command python_exe break_system pkg) true) s =
  (if starts w (spawned s) then Returned tt else Raised OSError,
   {| trace := trace s ++ attempt w python_exe break_system pkg (spawned s);
      spawned := S (spawned s);
      fs := run_fs w (spawned s) (fs s) |}).
Proof.
  unfold bind at 1. unfold console_print, emit.
  rewrite uninstall_run_eq. cbn [trace spawned fs andb].
  unfold attempt, run_fs. cbv zeta.
  destruct (starts w (spawned s)); [| now rewrite <- !app_assoc].
  destruct (exit_status (child w (spawned s)) =? 0)%Z; cbn [negb];
    now rewrite <- !app_assoc.
Qed.

(** The loop over any list of packages: one attempt for each in order, up
    to the first command that cannot be started; it returns when there is
    none. *)
Lemma uninstall_loop_eq (python_exe : string) (break_system : bool)
  (pkgs : list string) (s : State) :
  exists s',
    for_each pkgs (fun pkg =>
      bind (console_print
              (Rich.Panel (Rich.Markup ("Uninstalling package: [bold]" ++ pkg ++ "[/bold]")%string)
                          None None))
           (fun _ => Uninstall.run w (uninstall_command python_exe break_system pkg) true)) s =
    (if all_start w (spawned s) (length pkgs) then Returned tt else Raised OSError, s') /\
    trace s' = trace s ++ attempts w python_exe break_system pkgs (spawned s).
Proof.
  revert s. induction pkgs as [|pkg pkgs IH]; intros s.
  - exists s. split; [reflexivity | now rewrite app_nil_r].
  - cbn [for_each]. unfold bind at 1. rewrite uninstall_turn_eq.
    cbn [all_start length attempts].
    destruct (starts w (spawned s)) eqn:Hs; cbn [andb].
    + match goal with
      | |- context [for_each pkgs _ ?s1] => destruct (IH s1) as (s' & Hrun & Htr)
      end.
      exists s'. split; [exact Hrun|].
      rewrite Htr. cbn [trace spawned]. now rewrite <- app_assoc.
    + eexists. split; [reflexivity|]. cbn [trace]. now rewrite app_nil_r.
Qed.

Lemma uninstall_packages_eq (python_exe : string) (break_system : bool) (s : State) :
  exists s',
    Uninstall.uninstall_packages w python_exe break_system s =
    (if all_start w (spawned s) (length Uninstall.PYTHON_PACKAGES)
     then Returned tt else Raised OSError, s') /\
    trace s' =
    trace s ++ attempts w python_exe break_system Uninstall.PYTHON_PACKAGES (spawned s).
Proof.
  destruct (uninstall_loop_eq python_exe break_system Uninstall.PYTHON_PACKAGES s)
    as (s' & Hrun & Htr).
  exists s'. split; [| exact Htr]. rewrite <- Hrun.
  unfold Uninstall.uninstall_packages, uninstall_command.
  now destruct break_system.
Qed.

(** When every command can be started, each is handed over. *)
Lemma attempted_all_start (k n : nat) :
  all_start w k n = true -> attempted w k n = n.
Proof.
  revert k. induction n as [|n IH]; intros k H; [reflexivity|].
  cbn [all_start attempted] in H |- *.
  apply andb_prop in H as [Hs Hr]. rewrite Hs. now rewrite IH.
Qed.

(** The commands of the loop are those of the packages, one each, up to
    the first that cannot be started. *)
Lemma commands_attempts (python_exe : string) (break_system : bool)
  (pkgs : list string) (k : nat) :
  commands (attempts w python_exe break_system pkgs k) =
  firstn (attempted w k (length pkgs))
         (map (uninstall_command python_exe break_system) pkgs).
Proof.
  revert k. induction pkgs as [|pkg pkgs IH]; intros k; [reflexivity|].
  cbn [attempts map length attempted firstn]. rewrite commands_app.
  unfold attempt. cbv zeta.
  destruct (starts w k).
  - rewrite IH. now destruct (exit_status (child w k) =? 0)%Z.
  - reflexivity.
Qed.

(** The loop leaves something for every package it is given. *)
Lemma attempts_nil (python_exe : string) (break_system : bool)
  (pkgs : list string) (k : nat) :
  attempts w python_exe break_system pkgs k = [] -> pkgs = [].
Proof. destruct pkgs; [reflexivity | discriminate]. Qed.

(** Every failed command of the loop stands between its command line and
    its failure panel, and was not captured; and when nothing follows the
    panel, every command of the loop could be started. *)
Lemma failed_attempt (python_exe : string) (break_system : bool)
  (pkgs : list string) (k : nat) (cmd : list string) (c : bool) (r : Exited) :
  In (Spawn cmd c r) (attempts w python_exe break_system pkgs k) ->
  exit_status r <> 0%Z ->
  c = false /\
  exists pre post,
    attempts w python_exe break_system pkgs k =
    pre ++ [command_line cmd; Spawn cmd false r; failure_panel cmd] ++ post /\
    (post = [] -> all_start w k (length pkgs) = true).
Proof.
  revert k. induction pkgs as [|pkg pkgs IH]; intros k Hin Hnz; [destruct Hin|].
  cbn [attempts all_start length] in Hin |- *. apply in_app_or in Hin as [Hin|Hin].
  - unfold attempt in Hin |- *. cbv zeta in Hin |- *.
    apply in_app_or in Hin as [Hin|Hin];
      [destruct Hin as [E|[E|[]]]; discriminate |].
    destruct (starts w k); [| destruct Hin as [E|[]]; discriminate].
    destruct Hin as [E|Hin].
    + inversion E; subst cmd c r. split; [reflexivity|].
      apply Z.eqb_neq in Hnz. rewrite Hnz.
      eexists [_], _. cbn [app]. split; [reflexivity|].
      intros Hpost. apply attempts_nil in Hpost. now subst pkgs.
    + destruct (exit_status (child w k) =? 0)%Z; [destruct Hin|].
      destruct Hin as [E|[]]. discriminate.
  - destruct (starts w k); [| destruct Hin].
    destruct (IH _ Hin Hnz) as (Hc & pre & post & E & Hall). split; [exact Hc|].
    exists (attempt w python_exe break_system pkg k ++ pre), post.
    split; [now rewrite E, <- app_assoc | exact Hall].
Qed.

(** No event of the loop is the report of a missing virtual environment. *)
Lemma attempts_no_absence_report (python_exe : string) (break_system : bool)
  (pkgs : list string) (k : nat) :
  ~ In absence_report (attempts w python_exe break_system pkgs k).
Proof.
  revert k. induction pkgs as [|pkg pkgs IH]; intros k Hin; [destruct Hin|].
  cbn [attempts] in Hin. apply in_app_or in Hin as [Hin|Hin].
  - unfold attempt in Hin. cbv zeta in Hin.
    apply in_app_or in Hin as [Hin|Hin];
      [destruct Hin as [E|[E|[]]]; discriminate |].
    destruct (starts w k); [| destruct Hin as [E|[]]; discriminate].
    destruct Hin as [E|Hin]; [discriminate|].
    destruct (exit_status (child w k) =? 0)%Z; [destruct Hin|].
    destruct Hin as [E|[]]. discriminate.
  - destruct (starts w k); [exact (IH _ Hin) | destruct Hin].
Qed.

Lemma questions_attempts (python_exe : string) (break_system : bool)
  (pkgs : list string) (k : nat) :
  questions (attempts w python_exe break_system pkgs k) = [].
Proof.
  revert k. induction pkgs as [|pkg pkgs IH]; intros k; [reflexivity|].
  cbn [attempts]. rewrite questions_app. unfold attempt. cbv zeta.
  destruct (starts w k); [rewrite IH | reflexivity].
  now destruct (exit_status (child w k) =? 0)%Z.
Qed.

Lemma removals_attempts (python_exe : string) (break_system : bool)
  (pkgs : list string) (k : nat) :
  removals (attempts w python_exe break_system pkgs k) = [].
Proof.
  revert k. induction pkgs as [|pkg pkgs IH]; intros k; [reflexivity|].
  cbn [attempts]. rewrite removals_app. unfold attempt. cbv zeta.
  destruct (starts w k); [rewrite IH | reflexivity].
  now destruct (exit_status (child w k) =? 0)%Z.
Qed.

(** ** uninstall.py: the whole run *)

(** [shutil.rmtree] on a path where something exists. *)
Lemma bind_rmtree (B : Type) (p : Pathlib.Path) (k : unit -> M B) (s : State) :
  fs s p = true ->
  bind (rmtree w p) k s =
  match rmtree_stops w p with
  | Some rest =>
      (Raised OSError,
       {| trace := trace s ++ [Rmtree p]; spawned := spawned s; fs := rest (fs s) |})
  | None =>
      k tt {| trace := trace s ++ [Rmtree p]; spawned := spawned s;
              fs := fun q => if Pathlib.within p q then false else fs s q |}
  end.
Proof.
  intros H. unfold bind, rmtree. rewrite H. cbn [negb].
  now destruct (rmtree_stops w p).
Qed.

(** The second half of [main], from a state where nothing was handed to
    [subprocess.run] yet. *)
Lemma uninstall_second_half (s : State) :
  spawned s = 0 ->
  exists s',
    bind (Confirm_ask w Uninstall.ask_uninstall_system false) (fun uninstall_system =>
      bind (if uninstall_system
            then Uninstall.uninstall_packages w (sys_executable w) true
            else ret tt)
           (fun _ => console_print
                       (Rich.Panel
                          (Rich.Markup "[bold green]Uninstall process completed.[/bold green]")
                          None None))) s =
    (if packages_raise w then Raised OSError else Returned tt, s') /\
    trace s' =
    trace s ++ [AskConfirm Uninstall.ask_uninstall_system false] ++
    (if confirm_reply w Uninstall.ask_uninstall_system
     then attempts w (sys_executable w) true Uninstall.PYTHON_PACKAGES 0
     else []) ++
    (if packages_raise w then [] else [uninstall_completed]).
Proof.
  intros Hk. rewrite bind_confirm. unfold packages_raise.
  destruct (confirm_reply w Uninstall.ask_uninstall_system); cbn [andb].
  - unfold bind at 1.
    match goal with
    | |- context [Uninstall.uninstall_packages w ?py ?b ?s0] =>
        destruct (uninstall_packages_eq py b s0) as (s1 & Hrun & Htr)
    end.
    rewrite Hrun. cbn [spawned trace] in Htr |- *. rewrite Hk in Htr |- *.
    destruct (all_start w 0 (length Uninstall.PYTHON_PACKAGES)); cbn [negb].
    + eexists. split; [reflexivity|].
      unfold console_print, emit. cbn [trace]. rewrite Htr.
      now rewrite <- !app_assoc.
    + exists s1. split; [reflexivity|]. rewrite Htr.
      now rewrite <- !app_assoc, app_nil_r.
  - rewrite bind_ret. eexists. split; [reflexivity|].
    cbn [trace spawned fs]. now rewrite <- !app_assoc.
Qed.

(** [main], whatever the world: how it ends, and its trace: the banner,
    the removal of the virtual environment, and, unless that raised, the
    second confirmation, the attempts when confirmed, and the completion
    message unless a command could not be started. *)
Lemma uninstall_main_eq :
  uninstall_outcome w =
  (if removal_raises w || packages_raise w then Raised OSError else Returned tt) /\
  uninstall_trace w =
  [uninstall_banner] ++ venv_removal w ++
  (if removal_raises w then []
   else [AskConfirm Uninstall.ask_uninstall_system false] ++
        (if confirm_reply w Uninstall.ask_uninstall_system
         then attempts w (sys_executable w) true Uninstall.PYTHON_PACKAGES 0
         else []) ++
        (if packages_raise w then [] else [uninstall_completed])).
Proof.
  unfold uninstall_outcome, uninstall_trace.
  assert (H : exists s',
    Uninstall.main w (start w) =
    (if removal_raises w || packages_raise w then Raised OSError else Returned tt, s') /\
    trace s' =
    [uninstall_banner] ++ venv_removal w ++
    (if removal_raises w then []
     else [AskConfirm Uninstall.ask_uninstall_system false] ++
          (if confirm_reply w Uninstall.ask_uninstall_system
           then attempts w (sys_executable w) true Uninstall.PYTHON_PACKAGES 0
           else []) ++
          (if packages_raise w then [] else [uninstall_completed]))).
  { unfold Uninstall.main, venv_removal, removal_raises, console_print.
    rewrite bind_emit, bind_exists. cbn [fs start].
    destruct (path_exists w (Uninstall.DEFAULT_VENV w)) eqn:Hex; cbn [andb].
    - rewrite bind_assoc, bind_confirm.
      destruct (confirm_reply w (Uninstall.ask_remove_venv w)); cbn [andb].
      + unfold Uninstall.remove_virtualenv, console_print.
        rewrite bind_assoc, bind_exists. cbn [fs]. rewrite Hex.
        rewrite bind_assoc, bind_emit, bind_assoc.
        rewrite bind_rmtree by exact Hex.
        destruct (rmtree_stops w (Uninstall.DEFAULT_VENV w)); cbn [orb].
        * eexists. split; [reflexivity|].
          cbn [trace]. now rewrite <- !app_assoc, !app_nil_r.
        * rewrite bind_emit.
          match goal with
          | |- context [bind _ _ ?s0] =>
              destruct (uninstall_second_half s0) as (s' & Hrun & Htr);
                [reflexivity|]
          end.
          exists s'. split; [exact Hrun|]. rewrite Htr.
          cbn [trace spawned]. now rewrite <- !app_assoc.
      + rewrite bind_ret.
        match goal with
        | |- context [bind _ _ ?s0] =>
            destruct (uninstall_second_half s0) as (s' & Hrun & Htr);
              [reflexivity|]
        end.
        exists s'. split; [exact Hrun|]. rewrite Htr.
        cbn [trace spawned]. now rewrite <- !app_assoc.
    - rewrite bind_ret.
      match goal with
      | |- context [bind _ _ ?s0] =>
          destruct (uninstall_second_half s0) as (s' & Hrun & Htr);
            [reflexivity|]
      end.
      exists s'. split; [exact Hrun|]. rewrite Htr.
      cbn [trace spawned]. now rewrite <- !app_assoc. }
  destruct H as (s' & -> & Htr). split; [reflexivity | exact Htr].
Qed.

End UninstallSteps.
(** ** uninstall.py: the claims *)

Section UninstallClaims.

Variable w : World.

Lemma venv_removal_quiet : Forall quiet (venv_removal w).
Proof.
  unfold venv_removal.
  destruct (path_exists w (Uninstall.DEFAULT_VENV w)); [| constructor].
  destruct (confirm_reply w (Uninstall.ask_remove_venv w)); [| repeat constructor].
  destruct (rmtree_stops w (Uninstall.DEFAULT_VENV w)); repeat constructor.
Qed.

Lemma commands_quiet (tr : list Event) : Forall quiet tr -> commands tr = [].
Proof.
  induction 1 as [|e tr He _ IH]; [reflexivity|].
  destruct e; cbn [commands]; first [exact IH | destruct He].
Qed.

Lemma quiet_no_spawn (tr : list Event) (cmd : list string) (c : bool) (r : Exited) :
  Forall quiet tr -> ~ In (Spawn cmd c r) tr.
Proof.
  intros H Hin. rewrite Forall_forall in H. exact (H _ Hin).
Qed.

Lemma venv_removal_no_absence_report : ~ In absence_report (venv_removal w).
Proof.
  unfold venv_removal.
  destruct (path_exists w (Uninstall.DEFAULT_VENV w)); [| intros []].
  destruct (confirm_reply w (Uninstall.ask_remove_venv w));
    [destruct (rmtree_stops w (Uninstall.DEFAULT_VENV w)) |];
    cbn [app In]; intuition discriminate.
Qed.

Lemma questions_venv_removal :
  questions (venv_removal w) =
  if path_exists w (Uninstall.DEFAULT_VENV w)
  then [Uninstall.ask_remove_venv w] else [].
Proof.
  unfold venv_removal.
  destruct (path_exists w (Uninstall.DEFAULT_VENV w)); [| reflexivity].
  destruct (confirm_reply w (Uninstall.ask_remove_venv w)); [| reflexivity].
  now destruct (rmtree_stops w (Uninstall.DEFAULT_VENV w)).
Qed.

Lemma removals_venv_removal :
  removals (venv_removal w) =
  if path_exists w (Uninstall.DEFAULT_VENV w) &&
     confirm_reply w (Uninstall.ask_remove_venv w)
  then [Uninstall.DEFAULT_VENV w] else [].
Proof.
  unfold venv_removal.
  destruct (path_exists w (Uninstall.DEFAULT_VENV w)); [| reflexivity].
  destruct (confirm_reply w (Uninstall.ask_remove_venv w)); [| reflexivity].
  now destruct (rmtree_stops w (Uninstall.DEFAULT_VENV w)).
Qed.

(** Called on a path where nothing exists, [remove_virtualenv] does print
    the report of absence. *)
Lemma remove_virtualenv_reports_absence (p : Pathlib.Path) (s : State) :
  fs s p = false ->
  Uninstall.remove_virtualenv w p s =
  (Returned tt,
   {| trace := trace s ++ [absence_report]; spawned := spawned s; fs := fs s |}).
Proof.
  intros H. unfold Uninstall.remove_virtualenv.
  rewrite bind_exists, H. reflexivity.
Qed.

(** A failed command of the uninstaller is one of the loop, and the run
    goes on after its panel. *)
Lemma uninstall_failed_command (cmd : list string) (c : bool) (r : Exited) :
  In (Spawn cmd c r) (uninstall_trace w) ->
  exit_status r <> 0%Z ->
  c = false /\
  exists tr0 tr1,
    uninstall_trace w =
    tr0 ++ [command_line cmd; Spawn cmd false r; failure_panel cmd] ++ tr1 /\
    tr1 <> [].
Proof.
  destruct (uninstall_main_eq w) as [_ Htr]. rewrite Htr.
  intros Hin Hnz.
  apply in_app_or in Hin as [Hin|Hin];
    [destruct Hin as [E|[]]; discriminate |].
  apply in_app_or in Hin as [Hin|Hin];
    [elim (quiet_no_spawn _ _ _ _ venv_removal_quiet Hin) |].
  destruct (removal_raises w); [destruct Hin|].
  apply in_app_or in Hin as [Hin|Hin];
    [destruct Hin as [E|[]]; discriminate |].
  apply in_app_or in Hin as [Hin|Hin];
    [| destruct (packages_raise w); [destruct Hin | destruct Hin as [E|[]]; discriminate]].
  unfold packages_raise.
  destruct (confirm_reply w Uninstall.ask_uninstall_system); [| destruct Hin].
  destruct (failed_attempt w _ _ _ _ _ _ _ Hin Hnz) as (Hc & pre & post & E & Hall).
  split; [exact Hc|].
  exists ([uninstall_banner] ++ venv_removal w ++
          [AskConfirm Uninstall.ask_uninstall_system false] ++ pre),
         (post ++ (if true && negb (all_start w 0 (length Uninstall.PYTHON_PACKAGES))
                   then [] else [uninstall_completed])).
  split; [rewrite E; now rewrite <- !app_assoc |].
  destruct post as [|e post]; [| discriminate].
  rewrite (Hall eq_refl). discriminate.
Qed.

(** C6, evaluated on the code.  When nothing exists at the default path of
    the virtual environment, the run goes from its banner straight to the
    second confirmation, and no event of its trace is the report of
    absence; the run returns, unless the removal of the packages was
    confirmed and one of its commands could not be started. *)
Theorem absent_venv_is_not_reported :
  path_exists w (Uninstall.DEFAULT_VENV w) = false ->
  ~ In absence_report (uninstall_trace w) /\
  (exists rest,
      uninstall_trace w =
      uninstall_banner :: AskConfirm Uninstall.ask_uninstall_system false :: rest) /\
  uninstall_outcome w = (if packages_raise w then Raised OSError else Returned tt).
Proof.
  intros Hex. destruct (uninstall_main_eq w) as [Hout Htr].
  assert (Hrr : removal_raises w = false) by (unfold removal_raises; now rewrite Hex).
  rewrite Hrr in Hout, Htr. cbn [orb] in Hout.
  split; [| split; [| exact Hout]].
  - rewrite Htr. intros Hin.
    apply in_app_or in Hin as [Hin|Hin];
      [destruct Hin as [E|[]]; discriminate |].
    apply in_app_or in Hin as [Hin|Hin];
      [exact (venv_removal_no_absence_report Hin) |].
    apply in_app_or in Hin as [Hin|Hin];
      [destruct Hin as [E|[]]; discriminate |].
    apply in_app_or in Hin as [Hin|Hin];
      [| destruct (packages_raise w);
         [destruct Hin | destruct Hin as [E|[]]; discriminate]].
    destruct (confirm_reply w Uninstall.ask_uninstall_system); [| destruct Hin].
    exact (attempts_no_absence_report w _ _ _ _ Hin).
  - rewrite Htr. unfold venv_removal. rewrite Hex. cbn [app]. eexists. reflexivity.
Qed.



End UninstallClaims.

(** ** Failure reports in both scripts *)

(** * Further properties of the scripts *)

(** ** install.py: the runner, whatever [check] is *)

Section InstallRunnerMore.

Variable strip : string -> string.
Variable w : World.

(** X1.  [run] leaves the same events and the same state whether [check]
    is set or not: the command line, the one call of [subprocess.run], and
    the error panel when the child ended with a non-zero exit code and
    [rich] took its text.  [check] only decides whether [run] then raises
    [SystemExit] or returns; what [subprocess.run] and [rich] raise leaves
    [run] either way. *)
Theorem install_run_check_only_decides_the_abort (cmd : list string) (s : State) :
  snd (Install.run strip w cmd false s) = snd (Install.run strip w cmd true s) /\
  fst (Install.run strip w cmd false s) =
  match fst (Install.run strip w cmd true s) with
  | Raised (SystemExit _) => Returned tt
  | o => o
  end /\
  trace (snd (Install.run strip w cmd true s)) =
  trace s ++ command_line cmd ::
    (if negb (starts w (spawned s)) then [SpawnFailed cmd true OSError]
     else if negb (decodes w (spawned s)) then [SpawnFailed cmd true UnicodeDecodeError]
     else Spawn cmd true (child w (spawned s)) ::
          (if negb (exit_status (child w (spawned s)) =? 0)%Z &&
              markup_ok w (error_text strip (child w (spawned s)))
           then [error_panel strip (child w (spawned s))] else [])) /\
  fst (Install.run strip w cmd true s) =
  (if negb (starts w (spawned s)) then Raised OSError
   else if negb (decodes w (spawned s)) then Raised UnicodeDecodeError
   else if (exit_status (child w (spawned s)) =? 0)%Z then Returned tt
   else if markup_ok w (error_text strip (child w (spawned s)))
        then Raised (abort_message cmd (child w (spawned s)))
        else Raised MarkupError).
Proof.
  rewrite install_run_eq, install_run_loose. cbn [fst snd trace].
  split; [reflexivity|]. split; [| split].
  - destruct (required_exn strip w cmd (spawned s)) as [[]|]; reflexivity.
  - unfold run_events, failure_tail.
    destruct (starts w (spawned s)), (decodes w (spawned s)); cbn [negb]; try reflexivity.
    destruct (exit_status (child w (spawned s)) =? 0)%Z; cbn [negb andb]; reflexivity.
  - unfold required_exn, failure_exn.
    destruct (starts w (spawned s)), (decodes w (spawned s)); cbn [negb]; try reflexivity.
    destruct (exit_status (child w (spawned s)) =? 0)%Z; [reflexivity|].
    now destruct (markup_ok w (error_text strip (child w (spawned s)))).
Qed.

(** X2.  [install_packages] on an empty list hands nothing to
    [subprocess.run], prints nothing and returns, even when the next child
    would fail; on any other list it is one required command, the packages
    in their order after [<python> -m pip install] and the bypass flag
    last, and it returns exactly when that command goes well. *)
Theorem install_packages_spawns_at_most_once
  (py_exe : string) (packages : list string) (break_system : bool) (s : State) :
  Install.install_packages strip w py_exe packages break_system s =
  match packages with
  | [] => (Returned tt, s)
  | _ :: _ =>
      Install.run strip w
        (with_bypass break_system ([py_exe; "-m"; "pip"; "install"] ++ packages))
        true s
  end /\
  commands (trace (snd (Install.install_packages strip w py_exe packages break_system s))) =
  commands (trace s) ++
  match packages with
  | [] => []
  | _ :: _ => [with_bypass break_system ([py_exe; "-m"; "pip"; "install"] ++ packages)]
  end /\
  fst (Install.install_packages strip w py_exe packages break_system s) =
  match packages with
  | [] => Returned tt
  | _ :: _ =>
      match required_exn strip w
              (with_bypass break_system ([py_exe; "-m"; "pip"; "install"] ++ packages))
              (spawned s) with
      | None => Returned tt
      | Some e => Raised e
      end
  end.
Proof.
  destruct packages as [|pkg packages].
  - split; [reflexivity | split; [| reflexivity]].
    cbn [Install.install_packages ret snd]. now rewrite app_nil_r.
  - rewrite install_packages_some by discriminate.
    fold (with_bypass break_system ([py_exe; "-m"; "pip"; "install"] ++ pkg :: packages)).
    split; [reflexivity|].
    rewrite install_run_eq. cbn [fst snd trace].
    now rewrite commands_app, commands_run_events.
Qed.

End InstallRunnerMore.

(** ** install.py: the whole run *)

Section InstallRuns.

Variable strip : string -> string.
Variable Path : string -> Pathlib.Path.
Variable w : World.

(** X3.  The commands a run of the installer hands to [subprocess.run]
    are always the first of its plan: the provisioner when the virtual
    environment is selected and missing, then the upgrade of pip, the
    dependencies and the local package, all under the selected interpreter
    and all with or all without the bypass flag.  A run that returns has
    spawned the whole plan. *)
Theorem install_follows_its_plan (args : Install.Args) :
  exists rest,
    install_plan Path w args (path_exists w) (fst (selected w args)) =
    commands (install_trace strip Path w args) ++ rest /\
    (install_outcome strip Path w args = Returned tt -> rest = []).
Proof.
  unfold install_trace, install_outcome. rewrite install_main_eq.
  match goal with
  | |- context [Install.install_with _ _ _ _ ?uv ?ub ?s1] =>
      destruct (install_with_run strip Path w args uv ub s1)
        as (seg & rest & Ht & Hplan & Hret & _ & _)
  end.
  exists rest. rewrite Ht. cbn [trace fs] in Hplan |- *.
  split; [| exact Hret].
  rewrite Hplan.
  change (install_banner :: (if undecided args then [mode_question] else []) ++ seg)
    with ((install_banner :: (if undecided args then [mode_question] else [])) ++ seg).
  rewrite commands_app. now destruct (undecided args).
Qed.

(** X4.  The installer puts a question to the operator exactly when none
    of [--brek], [--no-venv] and [--yes] is given, and then one question
    only, the choice of the mode; whatever happens afterwards. *)
Theorem install_asks_only_when_undecided (args : Install.Args) :
  questions (install_trace strip Path w args) =
  if undecided args then ["Choose install mode"] else [].
Proof.
  unfold install_trace. rewrite install_main_eq.
  match goal with
  | |- context [Install.install_with _ _ _ _ ?uv ?ub ?s1] =>
      destruct (install_with_run strip Path w args uv ub s1)
        as (seg & rest & Ht & _ & _ & Hq & _)
  end.
  rewrite Ht. cbn [trace].
  change (install_banner :: (if undecided args then [mode_question] else []) ++ seg)
    with ((install_banner :: (if undecided args then [mode_question] else [])) ++ seg).
  rewrite questions_app, Hq. now destruct (undecided args).
Qed.

(** X5.  [--brek] changes nothing in a run that [--no-venv] or [--yes]
    already decides, and given alone it gives the very run [--yes] alone
    gives: same outcome, same trace, same final state. *)
Theorem brek_flag_changes_nothing (venv_arg : string) (s : State) :
  (forall yes_arg,
      Install.main strip Path w (Install.mkArgs true venv_arg true yes_arg) s =
      Install.main strip Path w (Install.mkArgs true venv_arg false yes_arg) s) /\
  (forall no_venv_arg,
      Install.main strip Path w (Install.mkArgs no_venv_arg venv_arg true true) s =
      Install.main strip Path w (Install.mkArgs no_venv_arg venv_arg false true) s) /\
  Install.main strip Path w (Install.mkArgs false venv_arg true false) s =
  Install.main strip Path w (Install.mkArgs false venv_arg false true) s.
Proof.
  split; [| split].
  - intros []; reflexivity.
  - intros []; reflexivity.
  - reflexivity.
Qed.

(** X11.  With [--yes] the other two flags are not looked at: the run is
    the run of [--yes] alone, whether [--no-venv] or [--brek] is given too
    or not. *)
Theorem yes_overrides_the_other_flags
  (no_venv_arg brek_arg : bool) (venv_arg : string) (s : State) :
  Install.main strip Path w (Install.mkArgs no_venv_arg venv_arg brek_arg true) s =
  Install.main strip Path w (Install.mkArgs false venv_arg false true) s.
Proof. destruct no_venv_arg, brek_arg; reflexivity. Qed.

End InstallRuns.

(** [main] without any flag: the question, then the installation from
    what the answer selects. *)
Lemma install_main_undecided
  (strip : string -> string) (Path : string -> Pathlib.Path) (w : World)
  (venv_arg : string) (s : State) :
  Install.main strip Path w (Install.mkArgs false venv_arg false false) s =
  Install.install_with strip Path w (Install.mkArgs false venv_arg false false)
    (String.eqb (accepted ["venv"; "brek"; "system"] "venv"
                          (prompt_reply w "Choose install mode")) "venv")
    (negb (String.eqb (accepted ["venv"; "brek"; "system"] "venv"
                                (prompt_reply w "Choose install mode")) "venv") &&
     String.eqb (accepted ["venv"; "brek"; "system"] "venv"
                          (prompt_reply w "Choose install mode")) "brek")
    {| trace := (trace s ++ [install_banner]) ++ [mode_question];
       spawned := spawned s;
       fs := fs s |}.
Proof.
  unfold Install.main, console_print. rewrite bind_emit.
  unfold bind at 1. rewrite select_mode_asked by reflexivity.
  cbn [trace spawned fs]. cbv zeta.
  destruct (String.eqb _ "venv"); [reflexivity|].
  destruct (String.eqb _ "brek"); reflexivity.
Qed.

(** The installation does not look at [use_brek], nor at the operator. *)
Lemma install_with_ignores_brek
  (strip : string -> string) (Path : string -> Pathlib.Path) (w : World)
  (args : Install.Args) (use_venv use_brek : bool) (reply : string) :
  Install.install_with strip Path (answering w reply) args use_venv use_brek =
  Install.install_with strip Path w args use_venv false.
Proof. reflexivity. Qed.

(** X6.  When the operator is asked, [Prompt.ask] hands back one of
    [venv], [brek] and [system], [venv] when the operator only presses
    Enter.  Every entry that is not taken for [venv] gives the run the
    answer [system] gives; so does [brek], which selects nothing of its
    own; and Enter gives the run of [venv]. *)
Theorem every_other_answer_is_system
  (strip : string -> string) (Path : string -> Pathlib.Path) (w : World)
  (venv_arg : string) (s : State) :
  (forall reply,
      accepted ["venv"; "brek"; "system"] "venv" reply <> "venv" ->
      Install.main strip Path (answering w reply)
        (Install.mkArgs false venv_arg false false) s =
      Install.main strip Path (answering w "system")
        (Install.mkArgs false venv_arg false false) s) /\
  Install.main strip Path (answering w "brek")
    (Install.mkArgs false venv_arg false false) s =
  Install.main strip Path (answering w "system")
    (Install.mkArgs false venv_arg false false) s /\
  Install.main strip Path (answering w EmptyString)
    (Install.mkArgs false venv_arg false false) s =
  Install.main strip Path (answering w "venv")
    (Install.mkArgs false venv_arg false false) s /\
  (forall reply,
      In (accepted ["venv"; "brek"; "system"] "venv" reply) ["venv"; "brek"; "system"]).
Proof.
  assert (Hother : forall reply,
      accepted ["venv"; "brek"; "system"] "venv" reply <> "venv" ->
      Install.main strip Path (answering w reply)
        (Install.mkArgs false venv_arg false false) s =
      Install.main strip Path (answering w "system")
        (Install.mkArgs false venv_arg false false) s).
  { intros reply Hne. apply String.eqb_neq in Hne.
    rewrite !install_main_undecided.
    cbn [prompt_reply answering]. rewrite Hne.
    rewrite !install_with_ignores_brek. reflexivity. }
  split; [exact Hother | split; [| split]].
  - apply Hother. discriminate.
  - rewrite !install_main_undecided. reflexivity.
  - intros reply. unfold accepted. cbn [existsb].
    destruct (String.eqb_spec reply "venv") as [->|_]; [now left|].
    destruct (String.eqb_spec reply "brek") as [->|_]; [right; now left|].
    destruct (String.eqb_spec reply "system") as [->|_]; [right; right; now left|].
    now left.
Qed.

(** ** uninstall.py: the filesystem and the commands *)

Lemma is_prefix_refl (xs : list string) : Pathlib.is_prefix xs xs = true.
Proof.
  induction xs as [|x xs IH]; [reflexivity|].
  cbn [Pathlib.is_prefix]. now rewrite String.eqb_refl, IH.
Qed.

Lemma within_refl (p : Pathlib.Path) : Pathlib.within p p = true.
Proof. unfold Pathlib.within. now rewrite String.eqb_refl, is_prefix_refl. Qed.

Lemma count_app (f : Event -> bool) (t1 t2 : list Event) :
  count f (t1 ++ t2) = count f t1 + count f t2.
Proof. unfold count. now rewrite filter_app, length_app. Qed.

Section UninstallMore.

Variable w : World.

(** X7.  [remove_virtualenv], case by case: where nothing exists it only
    reports the absence; where something exists it announces the removal
    and calls [shutil.rmtree], and when that raises, the exception leaves
    [remove_virtualenv] and nothing more is printed.  When the call
    returns, nothing exists at the path, every path that is not the path
    or below it is as it was, and a second call right after it only
    reports the absence. *)
Theorem remove_virtualenv_leaves_nothing_behind (p : Pathlib.Path) (s : State) :
  Uninstall.remove_virtualenv w p s =
  (if fs s p then
     match rmtree_stops w p with
     | None =>
         (Returned tt,
          {| trace := trace s ++
               [Print (Rich.Panel
                         (Rich.Markup ("Removing virtualenv: [bold]" ++
                                       Pathlib.to_str (os_name w) p ++ "[/bold]")%string)
                         None None);
                Rmtree p;
                Print (Rich.Panel (Rich.Markup "[green]Virtualenv removed.[/green]")
                                  None None)];
             spawned := spawned s;
             fs := fun q => if Pathlib.within p q then false else fs s q |})
     | Some rest =>
         (Raised OSError,
          {| trace := trace s ++
               [Print (Rich.Panel
                         (Rich.Markup ("Removing virtualenv: [bold]" ++
                                       Pathlib.to_str (os_name w) p ++ "[/bold]")%string)
                         None None);
                Rmtree p];
             spawned := spawned s;
             fs := rest (fs s) |})
     end
   else
     (Returned tt,
      {| trace := trace s ++ [absence_report]; spawned := spawned s; fs := fs s |})) /\
  (fst (Uninstall.remove_virtualenv w p s) = Returned tt ->
   fs (snd (Uninstall.remove_virtualenv w p s)) p = false /\
   (forall q, Pathlib.within p q = false ->
              fs (snd (Uninstall.remove_virtualenv w p s)) q = fs s q) /\
   Uninstall.remove_virtualenv w p (snd (Uninstall.remove_virtualenv w p s)) =
   (Returned tt,
    {| trace := trace (snd (Uninstall.remove_virtualenv w p s)) ++ [absence_report];
       spawned := spawned (snd (Uninstall.remove_virtualenv w p s));
       fs := fs (snd (Uninstall.remove_virtualenv w p s)) |})).
Proof.
  assert (Heq : Uninstall.remove_virtualenv w p s =
    (if fs s p then
       match rmtree_stops w p with
       | None =>
           (Returned tt,
            {| trace := trace s ++
                 [Print (Rich.Panel
                           (Rich.Markup ("Removing virtualenv: [bold]" ++
                                         Pathlib.to_str (os_name w) p ++ "[/bold]")%string)
                           None None);
                  Rmtree p;
                  Print (Rich.Panel (Rich.Markup "[green]Virtualenv removed.[/green]")
                                    None None)];
               spawned := spawned s;
               fs := fun q => if Pathlib.within p q then false else fs s q |})
       | Some rest =>
           (Raised OSError,
            {| trace := trace s ++
                 [Print (Rich.Panel
                           (Rich.Markup ("Removing virtualenv: [bold]" ++
                                         Pathlib.to_str (os_name w) p ++ "[/bold]")%string)
                           None None);
                  Rmtree p];
               spawned := spawned s;
               fs := rest (fs s) |})
       end
     else
       (Returned tt,
        {| trace := trace s ++ [absence_report]; spawned := spawned s; fs := fs s |}))).
  { unfold Uninstall.remove_virtualenv, console_print.
    rewrite bind_exists. destruct (fs s p) eqn:Hp; [| reflexivity].
    rewrite bind_emit, bind_rmtree by exact Hp.
    destruct (rmtree_stops w p); unfold emit; cbn [trace spawned fs];
      now rewrite <- !app_assoc. }
  split; [exact Heq|].
  rewrite Heq. intros Hret.
  assert (Hgone : fs (snd (if fs s p then
       match rmtree_stops w p with
       | None =>
           (Returned tt,
            {| trace := trace s ++
                 [Print (Rich.Panel
                           (Rich.Markup ("Removing virtualenv: [bold]" ++
                                         Pathlib.to_str (os_name w) p ++ "[/bold]")%string)
                           None None);
                  Rmtree p;
                  Print (Rich.Panel (Rich.Markup "[green]Virtualenv removed.[/green]")
                                    None None)];
               spawned := spawned s;
               fs := fun q => if Pathlib.within p q then false else fs s q |})
       | Some rest =>
           (@Raised unit OSError,
            {| trace := trace s ++
                 [Print (Rich.Panel
                           (Rich.Markup ("Removing virtualenv: [bold]" ++
                                         Pathlib.to_str (os_name w) p ++ "[/bold]")%string)
                           None None);
                  Rmtree p];
               spawned := spawned s;
               fs := rest (fs s) |})
       end
     else
       (Returned tt,
        {| trace := trace s ++ [absence_report]; spawned := spawned s; fs := fs s |}))) p
     = false).
  { destruct (fs s p) eqn:Hp; [| exact Hp].
    destruct (rmtree_stops w p); [discriminate|].
    cbn [snd fs]. now rewrite within_refl. }
  split; [exact Hgone | split].
  - intros q Hq. destruct (fs s p); [| reflexivity].
    destruct (rmtree_stops w p); [discriminate|].
    cbn [snd fs]. now rewrite Hq.
  - apply remove_virtualenv_reports_absence. exact Hgone.
Qed.

(** X8.  A run of the uninstaller calls [shutil.rmtree] once, on the
    default virtual environment, exactly when something exists there and
    the operator confirmed its removal; it never calls it on another path,
    whatever the answer to the second confirmation and whatever the
    uninstall commands do. *)
Theorem uninstall_removes_only_the_confirmed_venv :
  removals (uninstall_trace w) =
  if path_exists w (Uninstall.DEFAULT_VENV w) &&
     confirm_reply w (Uninstall.ask_remove_venv w)
  then [Uninstall.DEFAULT_VENV w] else [].
Proof.
  destruct (uninstall_main_eq w) as [_ Htr]. rewrite Htr.
  rewrite !removals_app, removals_venv_removal.
  assert (Htail : removals (if packages_raise w then [] else [uninstall_completed]) = [])
    by now destruct (packages_raise w).
  destruct (removal_raises w);
    [cbn [removals app uninstall_banner]; now rewrite app_nil_r |].
  rewrite !removals_app, Htail.
  destruct (confirm_reply w Uninstall.ask_uninstall_system);
    [rewrite removals_attempts |];
    cbn [removals app uninstall_banner]; now rewrite !app_nil_r.
Qed.

(** X9.  The uninstaller hands nothing to [subprocess.run] when the
    removal of the virtual environment raised or the operator answers no to
    the second confirmation; otherwise it hands over the uninstall commands
    under the running interpreter, each with the bypass flag, in the order
    of the packages and up to the first that cannot be started.  So when
    the removal does not raise and every command can be started, it is
    either nothing or all five commands; neither the virtual environment
    nor the first answer changes that. *)
Theorem uninstall_spawns_nothing_unless_confirmed :
  commands (uninstall_trace w) =
  (if negb (removal_raises w) && confirm_reply w Uninstall.ask_uninstall_system
   then firstn (attempted w 0 (length Uninstall.PYTHON_PACKAGES))
               (map (uninstall_command (sys_executable w) true) Uninstall.PYTHON_PACKAGES)
   else []) /\
  (removal_raises w = false ->
   all_start w 0 (length Uninstall.PYTHON_PACKAGES) = true ->
   commands (uninstall_trace w) =
   if confirm_reply w Uninstall.ask_uninstall_system
   then map (uninstall_command (sys_executable w) true) Uninstall.PYTHON_PACKAGES
   else []).
Proof.
  assert (Hcmds : commands (uninstall_trace w) =
    if negb (removal_raises w) && confirm_reply w Uninstall.ask_uninstall_system
    then firstn (attempted w 0 (length Uninstall.PYTHON_PACKAGES))
                (map (uninstall_command (sys_executable w) true) Uninstall.PYTHON_PACKAGES)
    else []).
  { destruct (uninstall_main_eq w) as [_ Htr]. rewrite Htr.
    rewrite !commands_app, (commands_quiet _ (venv_removal_quiet w)).
    assert (Htail : commands (if packages_raise w then [] else [uninstall_completed]) = [])
      by now destruct (packages_raise w).
    destruct (removal_raises w); [reflexivity|]. cbn [negb andb].
    rewrite !commands_app, Htail, app_nil_r. cbn [commands app uninstall_banner].
    destruct (confirm_reply w Uninstall.ask_uninstall_system); [| reflexivity].
    apply commands_attempts. }
  split; [exact Hcmds|].
  intros Hrr Hall. rewrite Hcmds, Hrr, attempted_all_start by exact Hall.
  cbn [negb andb]. reflexivity.
Qed.

Lemma count_attempts (python_exe : string) (break_system : bool)
  (pkgs : list string) (k : nat) :
  count is_failure_panel (attempts w python_exe break_system pkgs k) =
  count is_failure (attempts w python_exe break_system pkgs k).
Proof.
  revert k. induction pkgs as [|pkg pkgs IH]; intros k; [reflexivity|].
  cbn [attempts]. rewrite !count_app.
  assert (Hrest : count is_failure_panel
                    (if starts w k then attempts w python_exe break_system pkgs (S k) else []) =
                  count is_failure
                    (if starts w k then attempts w python_exe break_system pkgs (S k) else []))
    by (destruct (starts w k); [apply IH | reflexivity]).
  rewrite Hrest. f_equal.
  unfold attempt. cbv zeta. rewrite !count_app.
  unfold count at 1 3. cbn [filter is_failure is_failure_panel length].
  assert (Hu : prefix "[red]Command failed: "
                 ("Uninstalling package: [bold]" ++ pkg ++ "[/bold]")%string = false)
    by reflexivity.
  rewrite Hu. cbn [command_line is_failure_panel filter length].
  destruct (starts w k); [| reflexivity].
  destruct (exit_status (child w k) =? 0)%Z eqn:Hz.
  - unfold count. cbn [filter is_failure is_failure_panel]. rewrite Hz. reflexivity.
  - unfold count, failure_panel. cbn [filter is_failure is_failure_panel]. rewrite Hz.
    cbn [negb filter length]. now rewrite prefix_append.
Qed.

(** X10.  A run of the uninstaller prints as many failure panels as it
    spawned commands that exited with a non-zero code: one for each failure
    and none for a command that succeeded. *)
Theorem uninstall_one_panel_for_each_failure :
  count is_failure_panel (uninstall_trace w) = count is_failure (uninstall_trace w).
Proof.
  destruct (uninstall_main_eq w) as [_ Htr]. rewrite Htr.
  rewrite !count_app.
  assert (Hv : count is_failure_panel (venv_removal w) = 0 /\
               count is_failure (venv_removal w) = 0).
  { unfold venv_removal.
    destruct (path_exists w (Uninstall.DEFAULT_VENV w)); [| now split].
    destruct (confirm_reply w (Uninstall.ask_remove_venv w)); [| now split].
    destruct (rmtree_stops w (Uninstall.DEFAULT_VENV w)); now split. }
  destruct Hv as [-> ->].
  destruct (removal_raises w); [reflexivity|].
  rewrite !count_app.
  assert (Htail : count is_failure_panel
                    (if packages_raise w then [] else [uninstall_completed]) = 0 /\
                  count is_failure
                    (if packages_raise w then [] else [uninstall_completed]) = 0)
    by (destruct (packages_raise w); now split).
  destruct Htail as [-> ->].
  destruct (confirm_reply w Uninstall.ask_uninstall_system).
  - rewrite count_attempts. reflexivity.
  - reflexivity.
Qed.

End UninstallMore.
(** ** The claims on sample runs *)

(** Settles [In e tr] for an [e] that stands in a computed trace. *)
Ltac find_event := vm_compute; repeat first [left; reflexivity | right].

(** Settles [clean tr] for a computed trace. *)
Ltac all_clean := unfold clean; vm_compute; repeat constructor.




(** C9 on a run with [--yes] only. *)
Lemma yes_alone_witness :
  Install.select_mode (posix_world (fun _ => false) all_succeed "brek" (fun _ => true))
    (flags false false true)
    (start (posix_world (fun _ => false) all_succeed "brek" (fun _ => true)))
  = (Returned (true, false),
     start (posix_world (fun _ => false) all_succeed "brek" (fun _ => true))) /\
  Forall (fun e => is_question e = false)
    (install_trace ascii_strip relative
       (posix_world (fun _ => false) all_succeed "brek" (fun _ => true))
       (flags false false true)).
Proof.
  destruct (yes_alone_selects_virtualenv ascii_strip relative
              (posix_world (fun _ => false) all_succeed "brek" (fun _ => true))
              (flags false false true))
    as (Hsel & _ & _ & Hq); [reflexivity | reflexivity | reflexivity |].
  split; [apply Hsel | exact Hq].
Defined.


(** C4 on three runs with [--yes] over an existing virtual environment.
    In the first the second command fails and points at its log in
    brackets, which [rich] does not take: no panel, and [MarkupError]
    instead of the exit.  In the second the second command fails with a
    plain text, in the third every command goes well. *)
Lemma install_stops_witness :
  install_outcome ascii_strip relative
    (rejecting "[/tmp"
       (posix_world (fun _ => true) (fails_with_log_at 1) "venv" (fun _ => true)))
    (flags false false true)
  = Raised MarkupError /\
  install_outcome ascii_strip relative
    (posix_world (fun _ => true) (fails_at 1) "venv" (fun _ => true))
    (flags false false true)
  = Raised (abort_message
              (".venv/bin/python" :: "-m" :: "pip" :: "install" :: Install.VCS_PACKAGES)
              {| exit_status := 1; err_text := " boom " |}) /\
  install_outcome ascii_strip relative
    (posix_world (fun _ => true) all_succeed "venv" (fun _ => true))
    (flags false false true)
  = Returned tt.
Proof.
  split; [| split].
  - destruct (install_stops_at_first_failure ascii_strip relative
                (rejecting "[/tmp"
                   (posix_world (fun _ => true) (fails_with_log_at 1) "venv"
                                (fun _ => true)))
                (flags false false true)) as (Hfail & _ & _).
    destruct (Hfail (".venv/bin/python" :: "-m" :: "pip" :: "install" ::
                     Install.VCS_PACKAGES)
                    true {| exit_status := 1; err_text := "ERROR: see [/tmp/pip.log]" |})
      as (_ & _ & tr0 & _ & Hif); [find_event | discriminate |].
    exact (proj2 Hif).
  - destruct (install_stops_at_first_failure ascii_strip relative
                (posix_world (fun _ => true) (fails_at 1) "venv" (fun _ => true))
                (flags false false true)) as (Hfail & _ & _).
    destruct (Hfail (".venv/bin/python" :: "-m" :: "pip" :: "install" ::
                     Install.VCS_PACKAGES)
                    true {| exit_status := 1; err_text := " boom " |})
      as (_ & _ & tr0 & _ & Hif); [find_event | discriminate |].
    exact (proj2 Hif).
  - destruct (install_stops_at_first_failure ascii_strip relative
                (posix_world (fun _ => true) all_succeed "venv" (fun _ => true))
                (flags false false true)) as (_ & Hok & _).
    apply Hok. all_clean.
Defined.

(** C1 on a run with [--brek] only whose commands all succeed. *)
Lemma filtered_mode_witness :
  exists cmd r,
    In (Spawn cmd true r)
       (install_trace ascii_strip relative
          (posix_world (fun _ => true) all_succeed "venv" (fun _ => true))
          (flags false true false)) /\
    is_pip_install cmd = true /\
    incl Install.VCS_PACKAGES cmd /\
    existsb from_vcs cmd = true.
Proof.
  apply (filtered_mode_installs_vcs_packages ascii_strip relative
           (posix_world (fun _ => true) all_succeed "venv" (fun _ => true))
           (flags false true false) true).
  - intros s. reflexivity.
  - vm_compute. reflexivity.
Defined.


(** C6 on a run with no virtual environment in place. *)
Lemma absent_venv_witness :
  ~ In absence_report
      (uninstall_trace
         (posix_world (fun _ => false) all_succeed "venv" (fun _ => false))).
Proof.
  apply (absent_venv_is_not_reported
           (posix_world (fun _ => false) all_succeed "venv" (fun _ => false))).
  reflexivity.
Defined.




(** A run over a virtual environment that cannot be removed stops there:
    the exception of [shutil.rmtree] leaves [main], and the second
    confirmation is never asked. *)
Lemma stuck_venv_stops_the_run :
  uninstall_outcome
    (stuck (posix_world (fun _ => true) all_succeed "venv" (fun _ => true))) =
  Raised OSError /\
  questions
    (uninstall_trace
       (stuck (posix_world (fun _ => true) all_succeed "venv" (fun _ => true)))) =
  ["Detected virtualenv at /opt/ghost/.venv. Remove it?"].
Proof. split; vm_compute; reflexivity. Qed.

(** ** The further properties on sample runs *)

(** X3 on a run with [--yes] that has to provision the virtual environment
    and whose commands all succeed: the whole plan is spawned. *)
Lemma install_plan_witness :
  install_plan relative
    (posix_world (fun _ => false) all_succeed "venv" (fun _ => true))
    (flags false false true)
    (path_exists (posix_world (fun _ => false) all_succeed "venv" (fun _ => true)))
    (fst (selected (posix_world (fun _ => false) all_succeed "venv" (fun _ => true))
                   (flags false false true))) =
  commands
    (install_trace ascii_strip relative
       (posix_world (fun _ => false) all_succeed "venv" (fun _ => true))
       (flags false false true)).
Proof.
  destruct (install_follows_its_plan ascii_strip relative
              (posix_world (fun _ => false) all_succeed "venv" (fun _ => true))
              (flags false false true)) as (rest & Hplan & Hret).
  rewrite (Hret eq_refl) in Hplan. rewrite app_nil_r in Hplan. exact Hplan.
Defined.

(** X6 on the answer [brek]. *)
Lemma other_answer_witness :
  Install.main ascii_strip relative
    (answering (posix_world (fun _ => true) all_succeed "venv" (fun _ => true)) "brek")
    (Install.mkArgs false ".venv" false false)
    (start (posix_world (fun _ => true) all_succeed "venv" (fun _ => true))) =
  Install.main ascii_strip relative
    (answering (posix_world (fun _ => true) all_succeed "venv" (fun _ => true)) "system")
    (Install.mkArgs false ".venv" false false)
    (start (posix_world (fun _ => true) all_succeed "venv" (fun _ => true))).
Proof.
  apply (proj1 (every_other_answer_is_system ascii_strip relative
                  (posix_world (fun _ => true) all_succeed "venv" (fun _ => true))
                  ".venv"
                  (start (posix_world (fun _ => true) all_succeed "venv"
                                      (fun _ => true))))).
  vm_compute. discriminate.
Defined.

(** X7 on a virtual environment that exists beside another directory. *)
Lemma remove_virtualenv_witness :
  fs (snd (Uninstall.remove_virtualenv
             (posix_world (fun _ => true) all_succeed "venv" (fun _ => true))
             (relative ".venv")
             (start (posix_world (fun _ => true) all_succeed "venv" (fun _ => true)))))
     (relative ".venv") = false /\
  fs (snd (Uninstall.remove_virtualenv
             (posix_world (fun _ => true) all_succeed "venv" (fun _ => true))
             (relative ".venv")
             (start (posix_world (fun _ => true) all_succeed "venv" (fun _ => true)))))
     (relative "src") = true.
Proof.
  destruct (remove_virtualenv_leaves_nothing_behind
              (posix_world (fun _ => true) all_succeed "venv" (fun _ => true))
              (relative ".venv")
              (start (posix_world (fun _ => true) all_succeed "venv" (fun _ => true))))
    as (_ & Hret).
  destruct (Hret eq_refl) as (Hgone & Hother & _).
  split; [exact Hgone|].
  rewrite (Hother (relative "src")); reflexivity.
Defined.

(** X9 on a run that confirms the removal of the packages and where the
    command for pex fails: all five commands are run. *)
Lemma uninstall_commands_witness :
  commands
    (uninstall_trace
       (posix_world (fun _ => true) (fails_at 2) "venv" (fun _ => true))) =
  map (uninstall_command "/usr/bin/python3" true) Uninstall.PYTHON_PACKAGES.
Proof.
  destruct (uninstall_spawns_nothing_unless_confirmed
              (posix_world (fun _ => true) (fails_at 2) "venv" (fun _ => true)))
    as (_ & Hall).
  rewrite Hall; reflexivity.
Defined.
